(** * Loan history viewer: record harvesting and field normalisation

    A shallow embedding of the data core of [steamily_app.py]: the record
    detector ([_looks_like_record]), the recursive harvester
    ([harvest_records]), the field normaliser ([_normalize_row],
    [_coerce_date]), the table builder ([make_dataframe]) and the focus view
    ([make_focus_loans_table]).

    Python values are modelled as follows.
    - A parsed JSON document is a value of [json].  A [dict] is an
      association list in insertion order (the order in which [values()]
      and [items()] iterate); a [str] is a [string].
    - The vocabularies [LOAN_KEYS], [SALE_KEYS] and [DATE_KEYS] are Python
      sets and are [gset string] here.
    - A pandas [DataFrame] is a list of column labels and a list of rows,
      each row carrying its index label.
    - The two date parsers the program calls, [dateutil.parser.parse] and
      the element parser behind [pandas.to_datetime], are library code; they
      are variables of the section that holds the pipeline. *)

From Stdlib Require Import ZArith Ascii String List Sorting.Sorted Floats.SpecFloat.
From stdpp Require Import base decidable option list sets gmap strings sorting pretty.

#[local] Set Warnings "-clear-no-such-hyp".

Local Open Scope string_scope.
Local Open Scope list_scope.
Local Open Scope Z_scope.

(** ** JSON values *)

Module Json.

Unset Elimination Schemes.
Inductive json : Type :=
| JNull
| JBool (b : bool)
| JInt (n : Z)
| JFloat (f : spec_float)
| JStr (s : string)
| JArr (items : list json)
| JObj (members : list (string * json)).
Set Elimination Schemes.

(** A Python [dict] with [str] keys, in insertion order. *)
Abbreviation dict := (list (string * json)).

(** The values a container holds, in iteration order: the elements of a
    list, [obj.values()] of a dict. *)
Definition children (v : json) : list json :=
  match v with
  | JArr items => items
  | JObj members => map snd members
  | _ => []
  end.

Section Induction.
Variable P : json -> Prop.
Hypothesis Hnull : P JNull.
Hypothesis Hbool : forall b, P (JBool b).
Hypothesis Hint : forall n, P (JInt n).
Hypothesis Hfloat : forall f, P (JFloat f).
Hypothesis Hstr : forall s, P (JStr s).
Hypothesis Harr : forall items, Forall P items -> P (JArr items).
Hypothesis Hobj : forall members, Forall (fun kv => P (snd kv)) members -> P (JObj members).

Fixpoint json_ind (v : json) : P v :=
    match v with
    | JNull => Hnull
    | JBool b => Hbool b
    | JInt n => Hint n
    | JFloat f => Hfloat f
    | JStr s => Hstr s
    | JArr items =>
        Harr items
          ((fix all (l : list json) : Forall P l :=
              match l with
              | [] => @List.Forall_nil _ P
              | x :: l' => @List.Forall_cons _ P x l' (json_ind x) (all l')
              end) items)
    | JObj members =>
        Hobj members
          ((fix all (l : list (string * json)) : Forall (fun kv => P (snd kv)) l :=
              match l with
              | [] => @List.Forall_nil _ (fun kv => P (snd kv))
              | kv :: l' => @List.Forall_cons _ (fun kv => P (snd kv)) kv l' (json_ind (snd kv)) (all l')
              end) members)
    end.
End Induction.

End Json.
Import Json.

(** ** Vocabularies *)

Definition LOAN_KEYS : gset string :=
  list_to_set
    [ "lender"; "lender1"; "lender2"; "lenderName"; "lenderName1"; "lenderName2";
      "loanAmount"; "amountLoan"; "loanAmt"; "loanType"; "loanToValue"; "lienType";
      "interestRate"; "loanTerm"; "loanDueDate"; "recordingDate"; "documentDate"; "docNumber";
      "loanTypeCode"; "lenderLastName"; "beneficiary"; "date"; "term" ].

Definition SALE_KEYS : gset string :=
  list_to_set
    [ "saleAmount"; "salePrice"; "price"; "saleAmt";
      "deedType"; "transferTax"; "buyerName"; "sellerName"; "saleTransDate"; "saleRecDate" ].

Definition DATE_KEYS : gset string :=
  list_to_set
    [ "documentDate"; "recordingDate"; "saleDate"; "saleTransDate"; "saleRecDate";
      "contractDate"; "date" ].

Arguments LOAN_KEYS : simpl never.
Arguments SALE_KEYS : simpl never.
Arguments DATE_KEYS : simpl never.

(** ** Record detector and harvester *)

(** [len(set(d.keys()) & (LOAN_KEYS | SALE_KEYS)) > 0] *)
Definition _looks_like_record (d : dict) : bool :=
  bool_decide (0 < size ((list_to_set (map fst d) : gset string) ∩ (LOAN_KEYS ∪ SALE_KEYS)))%nat.

(** What one call appends to [found] before it recurses. *)
Definition found_here (obj : json) : list dict :=
  match obj with
  | JObj d => if _looks_like_record d then [d] else []
  | _ => []
  end.

Arguments _looks_like_record : simpl never.

(** The detector on an arbitrary node: only a dict can be a record. *)
Definition is_record (v : json) : bool :=
  match v with
  | JObj d => _looks_like_record d
  | _ => false
  end.

Fixpoint harvest_records (obj : json) : list dict :=
  match obj with
  | JObj d =>
      (if _looks_like_record d then [d] else [])
      ++ (fix values (m : dict) : list dict :=
            match m with
            | [] => []
            | (_, v) :: m' => harvest_records v ++ values m'
            end) d
  | JArr items =>
      (fix elements (l : list json) : list dict :=
         match l with
         | [] => []
         | item :: l' => harvest_records item ++ elements l'
         end) items
  | _ => []
  end.

(** ** Positions in a document and the pre-order walk

    A position is the list of child numbers followed from the root; child
    [i] of a list is its element [i], child [i] of a dict is the value of
    its [i]-th key in insertion order. *)

Module Walk.

Abbreviation path := (list nat).

Fixpoint lookup_path (p : path) (v : json) : option json :=
  match p with
  | [] => Some v
  | i :: p' => children v !! i ≫= lookup_path p'
  end.

(** Pre-order: a node comes before everything below it, and everything
    below an earlier sibling comes before everything below a later one. *)
Inductive path_lt : path -> path -> Prop :=
| path_lt_above i q : path_lt [] (i :: q)
| path_lt_left i j p q : (i < j)%nat -> path_lt (i :: p) (j :: q)
| path_lt_below i p q : path_lt p q -> path_lt (i :: p) (i :: q).

Definition under (i : nat) (pv : path * json) : path * json := (i :: pv.1, pv.2).

(** Every node of a document with its position, in pre-order. *)
Fixpoint walk (v : json) : list (path * json) :=
  ([], v) ::
  match v with
  | JArr items =>
      (fix go (i : nat) (l : list json) : list (path * json) :=
         match l with
         | [] => []
         | c :: l' => (under i <$> walk c) ++ go (S i) l'
         end) 0%nat items
  | JObj members =>
      (fix go (i : nat) (m : dict) : list (path * json) :=
         match m with
         | [] => []
         | (_, c) :: m' => (under i <$> walk c) ++ go (S i) m'
         end) 0%nat members
  | _ => []
  end.

Fixpoint walk_from (i : nat) (l : list json) : list (path * json) :=
  match l with
  | [] => []
  | c :: l' => (under i <$> walk c) ++ walk_from (S i) l'
  end.

End Walk.
Import Walk.

(** ** Python strings

    A [str] is modelled by a [string] whose characters are the code points
    below 256. *)

Module PyStr.

(** [str.lower] on one character; the names it is applied to are ASCII. *)
Definition lower_char (c : ascii) : ascii :=
  let n := nat_of_ascii c in
  if ((65 <=? n) && (n <=? 90))%nat then ascii_of_nat (n + 32) else c.

Fixpoint lower (s : string) : string :=
  match s with
  | EmptyString => EmptyString
  | String c s' => String (lower_char c) (lower s')
  end.

(** [s.endswith(suffix)] *)
Definition endswith (s suffix : string) : bool :=
  let n := String.length s in
  let m := String.length suffix in
  ((m <=? n)%nat && String.eqb (substring (n - m) m s) suffix)%bool.

(** [c.isspace()] for a code point below 256: the characters [str.strip()]
    removes. *)
Definition isspace (c : ascii) : bool :=
  let n := nat_of_ascii c in
  (((9 <=? n) && (n <=? 13)) || ((28 <=? n) && (n <=? 32)) || (n =? 133) || (n =? 160))%nat.

Fixpoint lstrip (s : string) : string :=
  match s with
  | EmptyString => EmptyString
  | String c s' => if isspace c then lstrip s' else s
  end.

(** [s.strip()] *)
Definition strip (s : string) : string :=
  String.rev (lstrip (String.rev (lstrip s))).

(** Truth value of a [str]: it is not empty. *)
Definition truthy (s : string) : bool :=
  match s with
  | EmptyString => false
  | String _ _ => true
  end.

(** [s.zfill(width)] for a string of digits. *)
Definition zfill (width : nat) (s : string) : string :=
  String.concat "" (replicate (width - String.length s) "0") +:+ s.

End PyStr.

(** ** Dates *)

Module Dates.

(** [datetime.date] *)
Record date := Date { year : Z; month : Z; day : Z }.

(** [datetime.datetime], as [dateutil.parser.parse] returns it; the time
    zone, which [.date()] ignores, is left out. *)
Record datetime := DateTime {
  dt_date : date;
  hour : Z;
  minute : Z;
  second : Z;
  microsecond : Z
}.

(** [date.isoformat()]: ["%04d-%02d-%02d"]. *)
Definition isoformat (d : date) : string :=
  PyStr.zfill 4 (pretty (Z.to_N (year d))) +:+ "-"
  +:+ PyStr.zfill 2 (pretty (Z.to_N (month d))) +:+ "-"
  +:+ PyStr.zfill 2 (pretty (Z.to_N (day d))).

(** A pandas [Timestamp] is a count of nanoseconds since 1970-01-01. *)
Abbreviation Timestamp := Z.

Definition NS_PER_DAY : Z := 86400 * 1000000000.

(** The proleptic Gregorian calendar date of a day number counted from
    1970-01-01. *)
Definition civil_from_days (days : Z) : date :=
  let z := days + 719468 in
  let era := z / 146097 in
  let doe := z - era * 146097 in
  let yoe := (doe - doe / 1460 + doe / 36524 - doe / 146096) / 365 in
  let doy := doe - (365 * yoe + yoe / 4 - yoe / 100) in
  let mp := (5 * doy + 2) / 153 in
  let d := doy - (153 * mp + 2) / 5 + 1 in
  let m := if mp <? 10 then mp + 3 else mp - 9 in
  Date (yoe + era * 400 + (if m <=? 2 then 1 else 0)) m d.

(** The day number of a calendar date. *)
Definition days_from_civil (d : date) : Z :=
  let y := if month d <=? 2 then year d - 1 else year d in
  let era := y / 400 in
  let yoe := y - era * 400 in
  let mp := if month d <=? 2 then month d + 9 else month d - 3 in
  let doy := (153 * mp + 2) / 5 + day d - 1 in
  let doe := yoe * 365 + yoe / 4 - yoe / 100 + doy in
  era * 146097 + doe - 719468.

(** [Timestamp.date()] and [Timestamp.year]. *)
Definition timestamp_date (t : Timestamp) : date := civil_from_days (t / NS_PER_DAY).
Definition timestamp_year (t : Timestamp) : Z := year (timestamp_date t).

(** Midnight at the start of a calendar date. *)
Definition timestamp_of_date (d : date) : Timestamp := days_from_civil d * NS_PER_DAY.

End Dates.
Import Dates.

(** ** Python dicts *)

Module PyDict.

(** [d[k]], [None] when [k not in d]. *)
Fixpoint dict_get (k : string) (d : dict) : option json :=
  match d with
  | [] => None
  | (k', v) :: d' => if String.eqb k k' then Some v else dict_get k d'
  end.

(** [d[k] = v]: an existing key keeps its place, a new key goes last. *)
Fixpoint dict_set (k : string) (v : json) (d : dict) : dict :=
  match d with
  | [] => [(k, v)]
  | (k', v') :: d' => if String.eqb k k' then (k, v) :: d' else (k', v') :: dict_set k v d'
  end.

End PyDict.
Import PyDict.

(** ** The date libraries

    [dateutil_parse s] is the [datetime] that [dateutil.parser.parse(s)]
    returns, [None] when the call raises.  [pandas_parse col v] is the
    timestamp [pandas.to_datetime(col, errors="coerce")] gives the element
    [v] of the column [col], [None] when the element does not parse. *)

Inductive cell : Type :=
| VObj (v : json)      (* a Python object held in the frame *)
| VNaN                 (* missing value *)
| VTime (t : Timestamp)
| VNaT
| VNA.                 (* [pd.NA] of the string dtype *)

Class DateLib := {
  dateutil_parse : string -> option datetime;
  pandas_parse : list cell -> json -> option Timestamp
}.

(** ** Field normaliser *)

Definition _coerce_date `{DateLib} (v : json) : json :=
  match v with
  | JStr s =>
      match dateutil_parse s with
      | Some dt => JStr (isoformat (dt_date dt))
      | None => v
      end
  | _ => v
  end.

Definition colmap : list (string * list string) :=
  [ ("documentDate", ["documentDate"; "docDate"; "date"]);
    ("recordingDate", ["recordingDate"; "saleRecDate"]);
    ("recordType", ["recordType"; "doctype"; "docType"; "type"]);
    ("salePrice", ["saleAmount"; "salePrice"; "price"; "saleAmt"]);
    ("deedType", ["deedType"]);
    ("loanAmount", ["loanAmount"; "amountLoan"; "loanAmt"; "amount"]);
    ("loanType", ["loanType"; "loanTypeCode"]);
    ("lienType", ["lienType"]);
    ("interestRate", ["interestRate"; "rate"]);
    ("loanTerm", ["loanTerm"; "term"]);
    ("loanToValue", ["loanToValue"; "ltv"]);
    ("docNumber", ["docNumber"; "documentNumber"; "trustDeedDocumentNumber"]);
    ("lenderName", ["lender"; "lender1"; "lenderName"; "lenderName1"; "lenderLastName"; "beneficiary"]);
    ("buyerName", ["buyerName"]);
    ("sellerName", ["sellerName"]);
    ("saleDate", ["saleDate"; "saleTransDate"; "contractDate"; "date"]) ].

(** [v not in (None, "")] *)
Definition not_none_or_empty (v : json) : bool :=
  match v with
  | JNull => false
  | JStr EmptyString => false
  | _ => true
  end.

(** The inner loop: the value of the first candidate [c] with
    [c in d and d[c] not in (None, "")], where the loop breaks. *)
Fixpoint first_candidate (d : dict) (candidates : list string) : option json :=
  match candidates with
  | [] => None
  | c :: rest =>
      match dict_get c d with
      | Some v => if not_none_or_empty v then Some v else first_candidate d rest
      | None => first_candidate d rest
      end
  end.

(** The body of the first loop for one entry of [colmap]. *)
Definition assign_step (d : dict) (out : dict) (entry : string * list string) : dict :=
  let '(std_col, candidates) := entry in
  match first_candidate d candidates with
  | Some v => dict_set std_col v out
  | None => out
  end.

(** [out] after the first loop. *)
Definition assign_aliases (d : dict) : dict := fold_left (assign_step d) colmap [].

(** [k in DATE_KEYS or k.lower().endswith("date")] *)
Definition is_date_key (k : string) : bool :=
  bool_decide (k ∈ DATE_KEYS) || PyStr.endswith (PyStr.lower k) "date".

(** The body of the second loop for one key. *)
Definition coerce_step `{DateLib} (out : dict) (k : string) : dict :=
  if is_date_key k then
    match dict_get k out with
    | Some v => dict_set k (_coerce_date v) out
    | None => out
    end
  else out.

(** The second loop, over [list(out.keys())]. *)
Definition coerce_dates `{DateLib} (out : dict) : dict := fold_left coerce_step out.*1 out.

Definition _normalize_row `{DateLib} (d : dict) : dict :=
  coerce_dates (assign_aliases d).

(** ** pandas frames *)

Module Pandas.

(** A row: its index label and its cells by column label. *)
Abbreviation row := (nat * list (string * cell))%type.

Record DataFrame := Frame { columns : list string; rows : list row }.

(** A column taken out of a frame: index labels and values. *)
Abbreviation Series := (list (nat * cell)).

(** [pd.DataFrame()] *)
Definition empty_frame : DataFrame := Frame [] [].

(** [df.empty]: one of the two axes has length 0. *)
Definition empty (df : DataFrame) : bool :=
  match columns df, rows df with
  | [], _ | _, [] => true
  | _, _ => false
  end.

Fixpoint cells_get (c : string) (cells : list (string * cell)) : option cell :=
  match cells with
  | [] => None
  | (c', v) :: cells' => if String.eqb c c' then Some v else cells_get c cells'
  end.

Fixpoint cells_set (c : string) (v : cell) (cells : list (string * cell)) : list (string * cell) :=
  match cells with
  | [] => [(c, v)]
  | (c', v') :: cells' =>
      if String.eqb c c' then (c, v) :: cells' else (c', v') :: cells_set c v cells'
  end.

(** The cell of a row in a column; a frame holds NaN where it has no value. *)
Definition cell_at (c : string) (r : row) : cell := default VNaN (cells_get c r.2).

(** [c in df.columns] *)
Definition has_column (c : string) (df : DataFrame) : bool := bool_decide (c ∈ columns df).

(** [df[c]] *)
Definition get_column (c : string) (df : DataFrame) : Series :=
  map (fun r => (r.1, cell_at c r)) (rows df).

(** [df[c] = s] for a series [s] on the index of [df].  A frame without
    rows or columns ([pd.DataFrame()]) takes the index of [s]. *)
Definition set_column (c : string) (s : Series) (df : DataFrame) : DataFrame :=
  match columns df, rows df with
  | [], [] => Frame [c] (map (fun iv => (iv.1, [(c, iv.2)])) s)
  | _, _ =>
      Frame (if has_column c df then columns df else columns df ++ [c])
            (zip_with (fun r iv => (r.1, cells_set c iv.2 r.2)) (rows df) s)
  end.

(** The column labels of a list of dicts, in order of first appearance. *)
Fixpoint union_keys (seen : list string) (records : list dict) : list string :=
  match records with
  | [] => seen
  | r :: records' =>
      union_keys (fold_left (fun acc k => if bool_decide (k ∈ acc) then acc else acc ++ [k]) r.*1 seen)
                 records'
  end.

(** The cell a record gives a column: its value, NaN when it lacks the key. *)
Definition record_cell (c : string) (r : dict) : cell :=
  match dict_get c r with
  | Some v => VObj v
  | None => VNaN
  end.

(** [pd.DataFrame(records)] for a non-empty list of dicts: a range index,
    the keys as columns. *)
Definition of_records (records : list dict) : DataFrame :=
  let cols := union_keys [] records in
  Frame cols (imap (fun i r => (i, map (fun c => (c, record_cell c r)) cols)) records).

(** [pd.isna] and [Series.notna] on one cell. *)
Definition isna (v : cell) : bool :=
  match v with
  | VNaN | VNaT | VNA | VObj JNull | VObj (JFloat S754_nan) => true
  | _ => false
  end.

Definition notna (v : cell) : bool := negb (isna v).

(** [pd.to_datetime(s, errors="coerce")]: a timestamp stays, a missing
    value becomes NaT, any other element is parsed and becomes NaT when it
    does not parse. *)
Definition to_datetime_cell `{DateLib} (col : list cell) (v : cell) : cell :=
  match v with
  | VTime t => VTime t
  | VObj x =>
      if isna v then VNaT
      else match pandas_parse col x with
           | Some t => VTime t
           | None => VNaT
           end
  | VNaN | VNaT | VNA => VNaT
  end.

Definition to_datetime `{DateLib} (s : Series) : Series :=
  map (fun iv => (iv.1, to_datetime_cell s.*2 iv.2)) s.

(** [s.replace(mapping)] on one cell: a value equal to a key is replaced. *)
Definition replace_cell (mapping : list (string * string)) (v : cell) : cell :=
  match v with
  | VObj (JStr s) =>
      match list_find (fun kv => kv.1 = s) mapping with
      | Some (_, (_, new)) => VObj (JStr new)
      | None => v
      end
  | _ => v
  end.

Definition replace (mapping : list (string * string)) (s : Series) : Series :=
  map (fun iv => (iv.1, replace_cell mapping iv.2)) s.

(** [df[mask]] with the mask computed row by row. *)
Definition filter_rows (keep : row -> bool) (df : DataFrame) : DataFrame :=
  Frame (columns df) (filter (fun r => keep r = true) (rows df)).

(** [s.dt.year] *)
Definition dt_year_cell (v : cell) : cell :=
  match v with
  | VTime t => VObj (JInt (timestamp_year t))
  | _ => VNaN
  end.

(** [s.dt.date.astype("string")] *)
Definition dt_date_string_cell (v : cell) : cell :=
  match v with
  | VTime t => VObj (JStr (isoformat (timestamp_date t)))
  | _ => VNA
  end.

Definition series_map (f : cell -> cell) (s : Series) : Series :=
  map (fun iv => (iv.1, f iv.2)) s.

(** The sort key of a row: its timestamp in column [c], nothing for NaT. *)
Definition sort_key (c : string) (r : row) : option Timestamp :=
  match cell_at c r with
  | VTime t => Some t
  | _ => None
  end.

(** Descending order with missing keys last. *)
Definition desc_na_last (a b : option Timestamp) : Prop :=
  match a, b with
  | Some x, Some y => y <= x
  | Some _, None => True
  | None, Some _ => False
  | None, None => True
  end.

#[global] Instance desc_na_last_dec a b : Decision (desc_na_last a b).
Proof. destruct a, b; simpl; apply _. Defined.

(** [df.sort_values(by=[c], ascending=False)] with the default
    [na_position="last"]; rows with equal keys keep an order of the sort's
    choosing. *)
Definition sort_values_desc (c : string) (df : DataFrame) : DataFrame :=
  Frame (columns df)
        (merge_sort (fun r1 r2 => desc_na_last (sort_key c r1) (sort_key c r2)) (rows df)).

(** [df[cols]] *)
Definition select_columns (cols : list string) (df : DataFrame) : DataFrame :=
  Frame cols (map (fun r => (r.1, map (fun c => (c, cell_at c r)) cols)) (rows df)).

End Pandas.
Import Pandas.

(** ** Table builder *)

(** [str(v).strip()] as a truth value.  [str] of a [str] is the string
    itself; [str] of any other JSON value (["None"], ["True"], a number,
    ["[...]"], ["{...}"]) starts and ends with a character that is not
    white space, so stripping leaves it non-empty. *)
Definition str_strip_truthy (v : json) : bool :=
  match v with
  | JStr s => PyStr.truthy (PyStr.strip s)
  | _ => true
  end.

(** [any(str(v).strip() for v in r.values())] *)
Definition row_has_text (r : dict) : bool := existsb str_strip_truthy r.*2.

Definition typed_date_columns : list string := ["documentDate"; "recordingDate"; "saleDate"].

(** The body of the loop over the date columns (lines 188 and 189). *)
Definition coerce_column `{DateLib} (df : DataFrame) (col : string) : DataFrame :=
  if has_column col df then set_column col (to_datetime (get_column col df)) df else df.

Definition make_dataframe `{DateLib} (records : list dict) : DataFrame :=
  let rows := map _normalize_row records in
  let rows := filter (fun r => row_has_text r = true) rows in
  match rows with
  | [] => empty_frame
  | _ :: _ =>
      let df := of_records rows in
      fold_left coerce_column typed_date_columns df
  end.

(** ** Focus view *)

Definition loan_type_names : list (string * string) :=
  [("CONV", "Conventional"); ("FHA", "FHA"); ("VA", "VA"); ("HELOC", "HELOC")].

(** [next((c for c in ("saleDate", "documentDate", "recordingDate")
          if c in df.columns), None)] *)
Definition best_date_column (df : DataFrame) : option string :=
  snd <$> list_find (fun c => has_column c df = true) ["saleDate"; "documentDate"; "recordingDate"].

(** [view] when the retention filter has been applied (line 210). *)
Definition focus_filtered `{DateLib} (df : DataFrame) (best_date : string) : DataFrame :=
  let view := empty_frame in
  let view := set_column "Purchase Date" (to_datetime (get_column best_date df)) view in
  let view :=
    if has_column "loanType" df
    then set_column "Loan Type" (replace loan_type_names (get_column "loanType" df)) view
    else view in
  let view :=
    if has_column "lenderName" df
    then set_column "Lender Name" (get_column "lenderName" df) view
    else view in
  if has_column "Loan Type" view && has_column "Lender Name" view then
    filter_rows (fun r => notna (cell_at "Loan Type" r) || notna (cell_at "Lender Name" r)) view
  else if has_column "Loan Type" view then
    filter_rows (fun r => notna (cell_at "Loan Type" r)) view
  else if has_column "Lender Name" view then
    filter_rows (fun r => notna (cell_at "Lender Name" r)) view
  else view.

(** [view] when it has been sorted (line 214). *)
Definition focus_sorted (view : DataFrame) : DataFrame :=
  let view := set_column "Year" (series_map dt_year_cell (get_column "Purchase Date" view)) view in
  sort_values_desc "Purchase Date" view.

Definition make_focus_loans_table `{DateLib} (df : DataFrame) : DataFrame :=
  if empty df then df
  else
    match best_date_column df with
    | None => Frame ["Purchase Date"; "Year"; "Loan Type"; "Lender Name"] []
    | Some best_date =>
        let view := focus_filtered df best_date in
        if empty view then view
        else
          let view := focus_sorted view in
          let ordered_cols :=
            filter (fun c => has_column c view = true)
                   ["Year"; "Purchase Date"; "Loan Type"; "Lender Name"] in
          let view := select_columns ordered_cols view in
          if has_column "Purchase Date" view
          then set_column "Purchase Date"
                 (series_map dt_date_string_cell (get_column "Purchase Date" view)) view
          else view
    end.

(** The mask of lines 205 to 210, read on the row of [df] that a row of
    [view] was built from: without either column nothing is filtered. *)
Definition focus_mask (df : DataFrame) (r : row) : bool :=
  match has_column "loanType" df, has_column "lenderName" df with
  | true, true => notna (cell_at "loanType" r) || notna (cell_at "lenderName" r)
  | true, false => notna (cell_at "loanType" r)
  | false, true => notna (cell_at "lenderName" r)
  | false, false => true
  end.

(** The retention rule in the words of the documentation: with both
    columns one of the two values is not null, with one column its value is
    not null, with neither column no row is retained. *)
Definition retention_rule (df : DataFrame) (r : row) : bool :=
  match has_column "loanType" df, has_column "lenderName" df with
  | true, true => notna (cell_at "loanType" r) || notna (cell_at "lenderName" r)
  | true, false => notna (cell_at "loanType" r)
  | false, true => notna (cell_at "lenderName" r)
  | false, false => false
  end.

(** The cell [s.dt.date.astype("string")] shows for a sort key. *)
Definition purchase_date_cell (key : option Timestamp) : cell :=
  match key with
  | Some t => VObj (JStr (isoformat (timestamp_date t)))
  | None => VNA
  end.

(** ** Nesting depth *)

(** The number of containers around the most deeply nested value. *)
Fixpoint depth (v : json) : nat :=
  match v with
  | JArr items =>
      S ((fix deepest (l : list json) : nat :=
            match l with
            | [] => 0%nat
            | x :: l' => Nat.max (depth x) (deepest l')
            end) items)
  | JObj members =>
      S ((fix deepest (m : dict) : nat :=
            match m with
            | [] => 0%nat
            | (_, x) :: m' => Nat.max (depth x) (deepest m')
            end) members)
  | _ => 0%nat
  end.

(** [v] inside [n] lists of one element each. *)
Definition nest (n : nat) (v : json) : json := Nat.iter n (fun x => JArr [x]) v.

(** ** The recursion limit of the interpreter

    [harvest_records] has no depth parameter and no [raise] statement of
    its own, but it is a recursive Python function: the interpreter runs
    every call of a Python function in a new frame, and a call that would
    exceed the recursion limit ([sys.getrecursionlimit()]) raises
    [RecursionError] instead of running.  Nothing in [harvest_records]
    catches it, so it ends the whole call. *)

(** What a caller of [harvest_records] can observe: the list of line 178,
    or the [RecursionError]. *)
Inductive harvest_outcome : Type :=
| Returned (found : list dict)
| DepthFault.

(** The statements [found.extend(harvest_records(v))] of a loop, for the
    values [vs] in turn; [call] is the recursive call.  The first
    [RecursionError] ends the loop. *)
Fixpoint extend_each (call : json -> harvest_outcome) (found : list dict) (vs : list json)
  : harvest_outcome :=
  match vs with
  | [] => Returned found
  | v :: vs' =>
      match call v with
      | Returned l => extend_each call (found ++ l) vs'
      | DepthFault => DepthFault
      end
  end.

(** [harvest_records(obj)] called when [frames] more frames fit under the
    recursion limit.  The call itself takes one; on a dict the call
    [_looks_like_record(obj)] of line 171 takes one more while it runs
    ([set], [len] and [dict.keys] are built in and take none); each
    recursive call of lines 174 and 177 starts with the frames that are
    left. *)
Fixpoint harvest_records_in (frames : nat) (obj : json) : harvest_outcome :=
  match frames with
  | O => DepthFault
  | S free =>
      match obj with
      | JObj d =>
          match free with
          | O => DepthFault
          | S _ =>
              extend_each (harvest_records_in free)
                (if _looks_like_record d then [d] else []) (map snd d)
          end
      | JArr items => extend_each (harvest_records_in free) [] items
      | _ => Returned []
      end
  end.


(** ** The sample document of the documentation *)

Definition sample_document : json :=
  JObj [("property",
         JObj [("salehistory",
                JArr [JObj [("amountLoan", JInt 250000);
                            ("loanTypeCode", JStr "CONV");
                            ("lender1", JStr "Acme Bank");
                            ("saleTransDate", JStr "2019-07-01")]])])].

(** ** A reference instance of the date libraries

    Both parsers read the calendar form [YYYY-MM-DD]; [dateutil_parse]
    reads in addition the two other spellings of 3 March 2020 that the
    documentation of the program names. *)

Module Reference.

Definition digit (c : ascii) : option Z :=
  let n := nat_of_ascii c in
  if ((48 <=? n) && (n <=? 57))%nat then Some (Z.of_nat n - 48) else None.

Fixpoint number (acc : Z) (s : list ascii) : option Z :=
  match s with
  | [] => Some acc
  | c :: s' => d ← digit c; number (10 * acc + d) s'
  end.

Definition parse_iso (s : string) : option date :=
  match list_ascii_of_string s with
  | [y1; y2; y3; y4; "-"%char; m1; m2; "-"%char; d1; d2] =>
      y ← number 0 [y1; y2; y3; y4];
      m ← number 0 [m1; m2];
      d ← number 0 [d1; d2];
      if (1 <=? m) && (m <=? 12) && (1 <=? d) && (d <=? 31) then Some (Date y m d) else None
  | _ => None
  end.

Definition midnight (d : date) : datetime := DateTime d 0 0 0 0.

Definition reference_lib : DateLib := {|
  dateutil_parse s :=
    if String.eqb s "March 3, 2020" then Some (midnight (Date 2020 3 3))
    else if String.eqb s "03/03/2020" then Some (midnight (Date 2020 3 3))
    else midnight <$> parse_iso s;
  pandas_parse _ v :=
    match v with
    | JStr s => timestamp_of_date <$> parse_iso s
    | _ => None
    end
|}.

End Reference.

(** ** Sample tables *)

(** Two rows with a loan type, of which the second is missing, and a sale
    date. *)
Definition sample_table : DataFrame :=
  Frame ["loanType"; "saleDate"]
    [(0%nat, [("loanType", VObj (JStr "CONV")); ("saleDate", VObj (JStr "2019-07-01"))]);
     (1%nat, [("loanType", VNaN); ("saleDate", VObj (JStr "2020-01-01"))])].

(** Two lenders; the first row has a document date and no sale date. *)
Definition sample_lender_table : DataFrame :=
  Frame ["lenderName"; "saleDate"; "documentDate"]
    [(0%nat, [("lenderName", VObj (JStr "Acme Bank")); ("saleDate", VNaN);
              ("documentDate", VObj (JStr "2018-05-05"))]);
     (1%nat, [("lenderName", VObj (JStr "First Bank")); ("saleDate", VObj (JStr "2021-02-03"));
              ("documentDate", VNaN)])].

(** ** The summary line and the "Full Parsed" tab *)

(** A frame as pandas keeps it: distinct column labels, and in every row
    one cell for each column, in column order. *)
Definition well_formed (df : DataFrame) : Prop :=
  NoDup (columns df) /\ Forall (fun r : row => r.2.*1 = columns df) (rows df).

(** [len(df) if not df.empty else 0] *)
Definition total_rows (df : DataFrame) : nat :=
  if empty df then 0%nat else length (rows df).

(** [len(focus_preview)] *)
Definition loan_rows (focus_preview : DataFrame) : nat := length (rows focus_preview).

Definition preferred : list string :=
  [ "documentDate"; "recordingDate"; "saleDate"; "loanAmount"; "loanType"; "lienType";
    "interestRate"; "loanTerm"; "loanToValue"; "lenderName"; "buyerName"; "sellerName";
    "docNumber"; "salePrice" ].

(** [[c for c in preferred if c in df.columns]
     + [c for c in df.columns if c not in preferred]] *)
Definition full_parsed_order (df : DataFrame) : list string :=
  filter (fun c => c ∈ columns df) preferred ++ filter (fun c => c ∉ preferred) (columns df).

(** The document [fetch_attom] returns for a response body that is not
    JSON: [{"_raw_text": resp.text}]. *)
Definition raw_text_document (text : string) : json := JObj [("_raw_text", JStr text)].

(** ** The password gate *)

Module Gate.

(** The two keys of [st.session_state] the gate uses; [None] is a key that
    is not set. *)
Record SessionState := Session {
  password_correct : option bool;
  password : option string
}.

(** What a run of [check_password] puts on the page. *)
Inductive element : Type :=
| TextInput (label : string)
| ErrorBox (message : string).

(** [typed == pwd] for the [str] [typed] and the value [pwd] that
    [get_app_password()] returns ([JNull] for [None]): only an equal [str]
    compares equal. *)
Definition str_eq (typed : string) (pwd : json) : bool :=
  match pwd with
  | JStr s => String.eqb typed s
  | _ => false
  end.

(** The callback [password_entered]; the result is [None] when
    [st.session_state["password"]] raises [KeyError]. *)
Definition password_entered (app_password : json) (st : SessionState) : option SessionState :=
  match password st with
  | None => None
  | Some typed =>
      if str_eq typed app_password
      then Some (Session (Some true) None)
      else Some (Session (Some false) (Some typed))
  end.

(** Streamlit stores the text of the widget under its key and then runs the
    [on_change] callback. *)
Definition on_change (app_password : json) (typed : string) (st : SessionState)
  : option SessionState :=
  password_entered app_password (Session (password_correct st) (Some typed)).

(** One run of [check_password]: the state after it, what it rendered and
    what it returned.  Rendering the text input creates the key
    ["password"], with the empty string, when it is not set. *)
Definition check_password (st : SessionState) : SessionState * list element * bool :=
  let st :=
    match password_correct st with
    | None => Session (Some false) (password st)
    | Some _ => st
    end in
  match password_correct st with
  | Some true => (st, [], true)
  | flag =>
      (Session flag (Some (default "" (password st))),
       TextInput "Enter app password"
         :: match flag with
            | Some false => [ErrorBox "Password incorrect"]
            | _ => []
            end,
       false)
  end.

End Gate.

(** ** The address form *)

Module Form.

(** Truth value of a JSON value in Python. *)
Definition truthy_json (v : json) : bool :=
  match v with
  | JNull => false
  | JBool b => b
  | JInt n => negb (n =? 0)
  | JFloat f => match f with S754_zero _ => false | _ => true end
  | JStr s => PyStr.truthy s
  | JArr items => match items with [] => false | _ => true end
  | JObj members => match members with [] => false | _ => true end
  end.

(** How a submitted form ends: [st.error] or [st.warning] followed by
    [st.stop()], or the call [fetch_attom(street, address2, api_key)]. *)
Inductive outcome : Type :=
| StopError (message : string)
| StopWarning (message : string)
| Fetch (street address2 : string) (api_key : json).

Section WithUpper.

(** [str.upper] *)
Variable upper : string -> string.

(** [address2] when line 267 has been passed. *)
Definition compose_address2 (address2_raw city state zipcode : string) : string :=
  let address2 := PyStr.strip address2_raw in
  if negb (PyStr.truthy address2)
     && (PyStr.truthy city || PyStr.truthy state || PyStr.truthy zipcode)
  then
    let parts := [] in
    let parts := if PyStr.truthy city then parts ++ [PyStr.strip city] else parts in
    let parts := if PyStr.truthy state then parts ++ [upper (PyStr.strip state)] else parts in
    let line := String.concat ", " parts in
    if PyStr.truthy zipcode
    then (if PyStr.truthy line
          then line +:+ " " +:+ PyStr.strip zipcode
          else PyStr.strip zipcode)
    else line
  else address2.

(** Lines 253 to 274. *)
Definition handle_submit (api_key : json) (street address2_raw city state zipcode : string)
  : outcome :=
  if negb (truthy_json api_key) then
    StopError "No API key found. Add ATTOM_API_KEY to your .env (or st.secrets) and restart."
  else if negb (PyStr.truthy street) then
    StopError "Street Address is required."
  else
    let address2 := compose_address2 address2_raw city state zipcode in
    if negb (PyStr.truthy address2) then
      StopWarning "Provide Address2 directly or fill City/State/ZIP to construct it."
    else Fetch street address2 api_key.

End WithUpper.

(** [str.upper] on the letters a to z, for the examples. *)
Definition ascii_upper (s : string) : string :=
  string_of_list_ascii
    (map (fun c =>
            let n := nat_of_ascii c in
            if ((97 <=? n) && (n <=? 122))%nat then ascii_of_nat (n - 32) else c)
         (list_ascii_of_string s)).

End Form.

(** ** The filters of the "Loan Summary" tab *)

Module Filters.

(** The filters are built for a focus view that is not empty (line 293).
    The cells of its Year column are a year or NaN; [dropna] and [isin]
    pass NaN by. *)

(** The year a row shows, when it shows one. *)
Definition year_of (r : row) : option Z :=
  match cell_at "Year" r with
  | VObj (JInt y) => Some y
  | _ => None
  end.

(** The order of [sorted(..., reverse=True)] on integers. *)
Definition descending (a b : Z) : Prop := b <= a.

#[global] Instance descending_dec a b : Decision (descending a b).
Proof. unfold descending. apply _. Defined.

(** [sorted(list({int(y) for y in focus["Year"].dropna().unique()}),
            reverse=True) if "Year" in focus.columns else []] *)
Definition year_options (focus : DataFrame) : list Z :=
  if has_column "Year" focus
  then merge_sort descending (remove_dups (omap year_of (rows focus)))
  else [].

(** [years[:10] if years else []], the years selected at first. *)
Definition default_years (focus : DataFrame) : list Z := take 10 (year_options focus).

(** [s.isin(year_filter)] on a row. *)
Definition year_selected (year_filter : list Z) (r : row) : bool :=
  match year_of r with
  | Some y => bool_decide (y ∈ year_filter)
  | None => false
  end.

(** A cell that can be hashed: line 299 puts the lenders through
    [unique()], which raises [TypeError] on a list or a mapping, so the
    filters are reached with hashable lender cells only. *)
Definition hashable (v : cell) : bool :=
  match v with
  | VObj (JArr _) | VObj (JObj _) => false
  | _ => true
  end.

(** [s.isin(lender_filter)] on a row with a hashable lender: the options
    are strings, and only a string is equal to one. *)
Definition lender_selected (lender_filter : list string) (r : row) : bool :=
  match cell_at "Lender Name" r with
  | VObj (JStr s) => bool_decide (s ∈ lender_filter)
  | _ => false
  end.

Definition nonempty {A} (l : list A) : bool :=
  match l with
  | [] => false
  | _ :: _ => true
  end.

(** [filtered] of lines 301 to 305. *)
Definition apply_filters (year_filter : list Z) (lender_filter : list string)
    (focus : DataFrame) : DataFrame :=
  let filtered := focus in
  let filtered :=
    if nonempty year_filter && has_column "Year" filtered
    then filter_rows (year_selected year_filter) filtered
    else filtered in
  let filtered :=
    if nonempty lender_filter && has_column "Lender Name" filtered
    then filter_rows (lender_selected lender_filter) filtered
    else filtered in
  filtered.

End Filters.

(** * Properties *)

(** Induction over the containment order: a property holds of a value as
    soon as it holds of everything the value directly contains. *)
Lemma children_ind (P : json -> Prop) :
  (forall v, Forall P (children v) -> P v) -> forall v, P v.
Proof.
  intros step. induction v using json_ind; apply step; simpl; auto.
  rewrite Forall_map. assumption.
Qed.


Lemma harvest_records_unfold obj :
  harvest_records obj = found_here obj ++ flat_map harvest_records (children obj).
Proof.
  destruct obj as [|b|n|f|s|items|members]; simpl; try reflexivity.
  f_equal. induction members as [|[k x] l IH]; simpl; [reflexivity|]. by rewrite IH.
Qed.

Example looks_like_record_ex1 :
  _looks_like_record [("foo", JNull); ("lender1", JStr "Acme Bank")] = true.
Proof. vm_compute. reflexivity. Qed.

Example looks_like_record_ex2 :
  _looks_like_record [("property", JNull)] = false.
Proof. vm_compute. reflexivity. Qed.


Example isoformat_ex : isoformat (Date 2020 3 3) = "2020-03-03".
Proof. vm_compute. reflexivity. Qed.

Example timestamp_date_ex :
  timestamp_date 1561939200000000000 = Date 2019 7 1
  /\ timestamp_of_date (Date 2019 7 1) = 1561939200000000000
  /\ timestamp_date (-1) = Date 1969 12 31.
Proof. vm_compute. auto. Qed.

Example strip_ex : PyStr.strip "  a b  " = "a b" /\ PyStr.strip "   " = "".
Proof. vm_compute. auto. Qed.

Example endswith_ex :
  PyStr.endswith (PyStr.lower "saleDate") "date" = true
  /\ PyStr.endswith (PyStr.lower "interestRate") "date" = false.
Proof. vm_compute. auto. Qed.

(** ** Facts about the pre-order walk *)

Module WalkFacts.

Lemma walk_unfold v : walk v = ([], v) :: walk_from 0 (children v).
Proof.
  destruct v as [|b|n|f|s|items|members]; simpl; try reflexivity.
  f_equal. generalize 0%nat.
  induction members as [|[k x] l IH]; intros i; simpl; [reflexivity|].
  by rewrite IH.
Qed.

Lemma path_lt_irrefl p : ~ path_lt p p.
Proof. induction p as [|i p IH]; inversion 1; subst; [lia | auto]. Qed.

Lemma path_lt_trans p q r : path_lt p q -> path_lt q r -> path_lt p r.
Proof.
  intros Hpq. revert r. induction Hpq; intros r Hqr; inversion Hqr; subst;
    try constructor; auto; lia.
Qed.

(** *** The walk visits exactly the positions of the document *)

Lemma elem_of_walk_from i l p x :
  Forall (fun c => forall q y, (q, y) ∈ walk c <-> lookup_path q c = Some y) l ->
  (p, x) ∈ walk_from i l <->
  exists j q c, p = (i + j)%nat :: q /\ l !! j = Some c /\ lookup_path q c = Some x.
Proof.
  intros Hl. revert i. induction Hl as [|c l Hc Hl IH]; intros i; simpl.
  - split; [by intros ?%elem_of_nil | by intros (j & q & c & _ & ? & _)].
  - rewrite elem_of_app, list_elem_of_fmap, IH. split.
    + intros [([q y] & [= -> ->] & Hin)|(j & q & c' & -> & Hj & Hq)].
      * exists 0%nat, q, c. rewrite Nat.add_0_r. split_and!; [done..|]. by apply Hc.
      * exists (S j), q, c'. split_and!; [f_equal; lia | done..].
    + intros ([|j] & q & c' & -> & Hj & Hq); simpl in Hj.
      * left. injection Hj as <-. exists (q, x). rewrite Nat.add_0_r.
        split; [done|]. by apply Hc.
      * right. exists j, q, c'. split_and!; [f_equal; lia | done..].
Qed.

Lemma elem_of_walk v : forall p x, (p, x) ∈ walk v <-> lookup_path p v = Some x.
Proof.
  induction v as [v IH] using children_ind. intros p x.
  rewrite walk_unfold, elem_of_cons, (elem_of_walk_from _ _ _ _ IH).
  destruct p as [|i p]; simpl.
  - split; [intros [[= ->]|(? & ? & ? & [=] & _)]; done | intros [= ->]; by left].
  - split.
    + intros [[=]|(j & q & c & [= -> ->] & Hj & Hq)]. by rewrite Hj.
    + intros Hx. right. destruct (children v !! i) as [c|] eqn:Hc; [|done].
      by exists i, p, c.
Qed.

(** *** The walk is in pre-order *)

Lemma walk_from_heads i l :
  Forall (fun pv => exists j q, pv.1 = j :: q /\ (i <= j)%nat) (walk_from i l).
Proof.
  revert i. induction l as [|c l IH]; intros i; simpl; [constructor|].
  apply Forall_app. split.
  - apply Forall_fmap, Forall_true. intros [q y]. simpl. eauto.
  - eapply Forall_impl; [apply IH|]. intros pv (j & q & ? & ?).
    exists j, q. split; [done | lia].
Qed.

Lemma StronglySorted_under i l :
  StronglySorted path_lt l.*1 -> StronglySorted path_lt (under i <$> l).*1.
Proof.
  induction l as [|[p x] l IH]; simpl; [constructor|].
  rewrite !StronglySorted_cons. intros [Hall Hs]. split; [|auto].
  clear IH Hs. induction l as [|[q y] l IH]; simpl in *; [constructor|].
  inversion_clear Hall. constructor; [by constructor | auto].
Qed.

Lemma walk_from_sorted i l :
  Forall (fun c => StronglySorted path_lt (walk c).*1) l ->
  StronglySorted path_lt (walk_from i l).*1.
Proof.
  intros Hl. revert i. induction Hl as [|c l Hc Hl IH]; intros i; simpl; [constructor|].
  rewrite fmap_app. apply StronglySorted_app_2; [|by apply StronglySorted_under|apply IH].
  intros p1 p2 (pv1 & -> & Hin1)%list_elem_of_fmap (pv2 & -> & Hin2)%list_elem_of_fmap.
  apply list_elem_of_fmap in Hin1 as ([q y] & -> & _).
  pose proof (walk_from_heads (S i) l) as Hh.
  rewrite Forall_forall in Hh. destruct (Hh _ Hin2) as (j & q' & -> & Hj).
  simpl. constructor. lia.
Qed.

Lemma walk_sorted v : StronglySorted path_lt (walk v).*1.
Proof.
  induction v as [v IH] using children_ind.
  rewrite walk_unfold. simpl. apply StronglySorted_cons. split.
  - pose proof (walk_from_heads 0 (children v)) as Hh.
    apply Forall_fmap. eapply Forall_impl; [apply Hh|].
    intros [p x] (j & q & Hp & _). simpl in *. subst p. constructor.
  - by apply walk_from_sorted.
Qed.

End WalkFacts.
Import WalkFacts.

(** ** The harvester, characterised *)

Module HarvestFacts.

Lemma looks_like_record_iff (d : dict) :
  _looks_like_record d = true <->
  exists k, k ∈ d.*1 /\ k ∈ LOAN_KEYS ∪ SALE_KEYS.
Proof.
  unfold _looks_like_record. rewrite bool_decide_eq_true. split.
  - intros (k & Hk)%size_pos_elem_of. exists k.
    apply elem_of_intersection in Hk as [Hd Hv].
    apply elem_of_list_to_set in Hd. split; assumption.
  - intros (k & Hd & Hv).
    assert (k ∈ (list_to_set d.*1 : gset string) ∩ (LOAN_KEYS ∪ SALE_KEYS)) as Hk.
    { apply elem_of_intersection. split; [by apply elem_of_list_to_set | done]. }
    destruct (size _) eqn:Hsz; [|lia].
    apply size_empty_iff in Hsz. rewrite Hsz in Hk.
    destruct (not_elem_of_empty (C:=gset string) k Hk).
Qed.

Lemma found_here_under i pv : found_here (under i pv).2 = found_here pv.2.
Proof. reflexivity. Qed.

Lemma harvest_from i l :
  Forall (fun c => harvest_records c = walk c ≫= (fun pv => found_here pv.2)) l ->
  flat_map harvest_records l = walk_from i l ≫= (fun pv => found_here pv.2).
Proof.
  intros Hl. revert i. induction Hl as [|c l Hc Hl IH]; intros i; simpl; [reflexivity|].
  rewrite bind_app, list_fmap_bind, Hc, (IH (S i)). reflexivity.
Qed.

(** [harvest_records] keeps, in walk order, the dicts the detector accepts. *)
Lemma harvest_walk v : harvest_records v = walk v ≫= (fun pv => found_here pv.2).
Proof.
  induction v as [v IH] using children_ind.
  rewrite harvest_records_unfold, walk_unfold, bind_cons. simpl.
  f_equal. by apply harvest_from.
Qed.

Lemma found_here_positions (D : json) (w : list (path * json)) :
  Forall (fun pv => lookup_path pv.1 D = Some pv.2) w ->
  Forall2 (fun p O => lookup_path p D = Some (JObj O))
    (filter (fun pv => is_record pv.2 = true) w).*1
    (w ≫= (fun pv => found_here pv.2)).
Proof.
  induction 1 as [|[p x] w Hp Hw IH]; [constructor|].
  rewrite bind_cons, filter_cons. simpl in *.
  destruct x as [|b|n|f|s|items|d]; simpl; try exact IH.
  destruct (_looks_like_record d) eqn:Hd; simpl.
  - by constructor.
  - exact IH.
Qed.

Lemma StronglySorted_fmap_filter {A B} (R : relation B) (f : A -> B)
    (P : A -> Prop) `{!forall x, Decision (P x)} (l : list A) :
  StronglySorted R (f <$> l) -> StronglySorted R (f <$> filter P l).
Proof.
  induction l as [|x l IH]; simpl; [done|].
  rewrite StronglySorted_cons, filter_cons. intros [Hall Hs].
  destruct (decide (P x)); [|auto].
  rewrite fmap_cons. apply StronglySorted_cons. split; [|auto].
  rewrite Forall_fmap in *. rewrite Forall_forall in *.
  intros y [_ Hy]%list_elem_of_filter. auto.
Qed.

Lemma StronglySorted_irrefl_NoDup {A} (R : relation A) (l : list A) :
  (forall x, ~ R x x) -> StronglySorted R l -> NoDup l.
Proof.
  intros Hirr. induction 1 as [|x l Hs IH Hall]; constructor; [|done].
  intros Hx. rewrite Forall_forall in Hall. exact (Hirr x (Hall x Hx)).
Qed.

(** C1.  For every document [D], [harvest_records D] is exactly the list of
    record-like dicts of [D]: there is a list of positions [ps], strictly
    increasing in pre-order (so without repetition), that holds a position
    iff the node there is a dict the detector accepts, and the returned
    list holds, position by position, the dict found there, unchanged.
    The detector accepts a dict iff one of its keys is in
    [LOAN_KEYS ∪ SALE_KEYS].  Nodes that are not dicts are at no position of
    [ps] and so contribute nothing. *)
Theorem harvest_records_exact (D : json) :
  exists ps : list path,
    Forall2 (fun p O => lookup_path p D = Some (JObj O)) ps (harvest_records D)
    /\ StronglySorted path_lt ps
    /\ NoDup ps
    /\ (forall p, p ∈ ps <->
          exists O, lookup_path p D = Some (JObj O) /\ _looks_like_record O = true)
    /\ Forall (fun O => _looks_like_record O = true) (harvest_records D)
    /\ (forall O : dict, _looks_like_record O = true <->
          exists k, k ∈ O.*1 /\ k ∈ LOAN_KEYS ∪ SALE_KEYS).
Proof.
  set (w := filter (fun pv => is_record pv.2 = true) (walk D)).
  assert (Hpos : Forall2 (fun p O => lookup_path p D = Some (JObj O)) w.*1 (harvest_records D)).
  { rewrite harvest_walk. apply found_here_positions.
    apply Forall_forall. intros [p x] Hin. by apply elem_of_walk. }
  assert (Hsorted : StronglySorted path_lt w.*1).
  { apply StronglySorted_fmap_filter, walk_sorted. }
  assert (Hmem : forall p, p ∈ w.*1 <->
            exists O, lookup_path p D = Some (JObj O) /\ _looks_like_record O = true).
  { intros p. unfold w. rewrite list_elem_of_fmap. split.
    - intros ([q x] & -> & [Hrec Hin]%list_elem_of_filter). simpl in *.
      destruct x as [|b|n|f|s|items|O]; try discriminate.
      exists O. split; [by apply elem_of_walk | done].
    - intros (O & Hp & Hrec). exists (p, JObj O). split; [done|].
      apply list_elem_of_filter. split; [done | by apply elem_of_walk]. }
  exists w.*1. split_and!; try done.
  - eapply StronglySorted_irrefl_NoDup; [apply path_lt_irrefl | done].
  - apply Forall_forall. intros O HO.
    apply list_elem_of_lookup_1 in HO as [i Hi].
    destruct (Forall2_lookup_r _ _ _ _ _ Hpos Hi) as (p & Hp & HpO).
    assert (p ∈ w.*1) as (O' & HO' & Hrec)%Hmem by (eapply list_elem_of_lookup_2; eauto).
    congruence.
  - apply looks_like_record_iff.
Qed.

End HarvestFacts.

(** ** Facts about dicts *)

Module DictFacts.

Lemma dict_get_Some_elem_of k v (d : dict) : dict_get k d = Some v -> (k, v) ∈ d.
Proof.
  induction d as [|[k' v'] d IH]; simpl; [done|].
  destruct (String.eqb_spec k k') as [->|Hne].
  - intros [= ->]. by left.
  - intros Hd. right. auto.
Qed.

Lemma dict_get_is_Some k (d : dict) : is_Some (dict_get k d) <-> k ∈ d.*1.
Proof.
  induction d as [|[k' v'] d IH]; simpl.
  - split; [by intros [? ?] | by intros ?%elem_of_nil].
  - rewrite elem_of_cons. destruct (String.eqb_spec k k') as [->|Hne].
    + split; eauto.
    + rewrite IH. naive_solver.
Qed.

Lemma dict_get_None k (d : dict) : dict_get k d = None <-> k ∉ d.*1.
Proof. rewrite <-dict_get_is_Some, eq_None_not_Some. done. Qed.

Lemma dict_get_set k k' v (d : dict) :
  dict_get k' (dict_set k v d) = if decide (k' = k) then Some v else dict_get k' d.
Proof.
  induction d as [|[k0 v0] d IH]; simpl.
  - destruct (String.eqb_spec k' k); by destruct (decide (k' = k)).
  - destruct (String.eqb_spec k k0) as [->|Hk]; simpl.
    + destruct (String.eqb_spec k' k0); by destruct (decide (k' = k0)).
    + rewrite IH. destruct (String.eqb_spec k' k0) as [->|?]; [|done].
      by destruct (decide (k0 = k)).
Qed.

Lemma dict_set_keys k v (d : dict) :
  (dict_set k v d).*1 = if decide (k ∈ d.*1) then d.*1 else d.*1 ++ [k].
Proof.
  induction d as [|[k0 v0] d IH]; [done|].
  cbn [dict_set]. destruct (String.eqb_spec k k0) as [->|Hk].
  - rewrite decide_True; [done | by left].
  - rewrite !fmap_cons, IH. cbn [fst].
    destruct (decide (k ∈ d.*1)) as [Hin|Hin].
    + rewrite decide_True; [done | by right].
    + rewrite decide_False; [done|]. rewrite elem_of_cons. naive_solver.
Qed.

Lemma dict_set_NoDup k v (d : dict) : NoDup d.*1 -> NoDup (dict_set k v d).*1.
Proof.
  intros Hd. rewrite dict_set_keys. destruct (decide (k ∈ d.*1)); [done|].
  apply NoDup_app. split_and!; [done | | apply NoDup_singleton].
  intros x Hx ->%list_elem_of_singleton. done.
Qed.

Lemma dict_set_Forall (Q : string * json -> Prop) k v (d : dict) :
  Q (k, v) -> Forall Q d -> Forall Q (dict_set k v d).
Proof.
  intros Hkv. induction 1 as [|[k0 v0] d H0 Hd IH]; simpl.
  - by constructor.
  - destruct (String.eqb k k0); constructor; auto.
Qed.

End DictFacts.
Import DictFacts.

(** ** Facts about the field normaliser *)

Module NormalizeFacts.

Section WithDateLib.
Context `{DateLib}.

Lemma not_none_or_empty_iff v :
  not_none_or_empty v = true <-> v <> JNull /\ v <> JStr "".
Proof.
  destruct v as [|b|n|f|s|items|members]; simpl; try (split; [done | done]).
  - split; [done | by intros [? _]].
  - destruct s; simpl; split; try done. by intros [_ ?].
Qed.

(** The inner loop stops at the first candidate that is a key of [d] with a
    value other than [None] and [""], whatever the later candidates hold. *)
Lemma first_candidate_Some d candidates v :
  first_candidate d candidates = Some v <->
  exists before c after,
    candidates = before ++ c :: after
    /\ dict_get c d = Some v /\ v <> JNull /\ v <> JStr ""
    /\ Forall (fun c' => dict_get c' d = None \/ dict_get c' d = Some JNull
                         \/ dict_get c' d = Some (JStr "")) before.
Proof.
  induction candidates as [|c0 cs IH]; simpl.
  - split; [done|]. intros (before & c & after & Heq & _). by destruct before.
  - destruct (dict_get c0 d) as [v0|] eqn:H0.
    + destruct (not_none_or_empty v0) eqn:Hq.
      * apply not_none_or_empty_iff in Hq as [? ?]. split.
        -- intros [= ->]. exists [], c0, cs. by split_and!.
        -- intros ([|b before] & c & after & Heq & Hc & ? & ? & Hskip); simplify_eq/=.
           ++ done.
           ++ inversion_clear Hskip as [|?? Hb _]. naive_solver.
      * assert (v0 = JNull \/ v0 = JStr "") as Hv0.
        { destruct v0 as [| | | |[|]| |]; try discriminate; auto. }
        rewrite IH. split.
        -- intros (before & c & after & -> & ? & ? & ? & ?).
           exists (c0 :: before), c, after. split_and!; try done.
           constructor; [|done]. naive_solver.
        -- intros ([|b before] & c & after & Heq & Hc & ? & ? & Hskip); simplify_eq/=.
           ++ naive_solver.
           ++ inversion_clear Hskip. by exists before, c, after.
    + rewrite IH. split.
      * intros (before & c & after & -> & ? & ? & ? & ?).
        exists (c0 :: before), c, after. split_and!; try done.
        constructor; [by left | done].
      * intros ([|b before] & c & after & Heq & Hc & ? & ? & Hskip); simplify_eq/=.
        inversion_clear Hskip. by exists before, c, after.
Qed.

Lemma first_candidate_None d candidates :
  first_candidate d candidates = None <->
  Forall (fun c => dict_get c d = None \/ dict_get c d = Some JNull
                   \/ dict_get c d = Some (JStr "")) candidates.
Proof.
  induction candidates as [|c0 cs IH]; simpl; [by split|].
  rewrite Forall_cons. destruct (dict_get c0 d) as [v0|] eqn:H0.
  - destruct (not_none_or_empty v0) eqn:Hq.
    + apply not_none_or_empty_iff in Hq as [? ?]. split; [done|]. naive_solver.
    + assert (v0 = JNull \/ v0 = JStr "") as Hv0.
      { destruct v0 as [| | | |[|]| |]; try discriminate; auto. }
      rewrite IH. naive_solver.
  - rewrite IH. naive_solver.
Qed.

Lemma first_candidate_usable d candidates v :
  first_candidate d candidates = Some v -> not_none_or_empty v = true.
Proof.
  intros (_ & _ & _ & _ & _ & ? & ? & _)%first_candidate_Some.
  by apply not_none_or_empty_iff.
Qed.

Lemma assign_other d cm acc k :
  k ∉ cm.*1 -> dict_get k (fold_left (assign_step d) cm acc) = dict_get k acc.
Proof.
  revert acc. induction cm as [|[k0 cs0] cm IH]; intros acc Hk; simpl; [done|].
  apply not_elem_of_cons in Hk as [Hne Hk]. rewrite IH by done.
  destruct (first_candidate d cs0); [|done].
  rewrite dict_get_set. by rewrite decide_False.
Qed.

Lemma assign_entry d cm acc k cs :
  NoDup cm.*1 -> (k, cs) ∈ cm -> dict_get k acc = None ->
  dict_get k (fold_left (assign_step d) cm acc) = first_candidate d cs.
Proof.
  revert acc. induction cm as [|[k0 cs0] cm IH]; intros acc Hnd Hin Hacc.
  - by apply elem_of_nil in Hin.
  - simpl in *. apply NoDup_cons in Hnd as [Hk0 Hnd].
    apply elem_of_cons in Hin as [[= -> ->]|Hin].
    + rewrite assign_other by done.
      destruct (first_candidate d cs0); [|done].
      rewrite dict_get_set. by rewrite decide_True.
    + assert (k <> k0) as Hne.
      { intros ->. apply Hk0. apply list_elem_of_fmap. by exists (k0, cs). }
      apply IH; [done..|].
      destruct (first_candidate d cs0); [|done].
      rewrite dict_get_set. by rewrite decide_False.
Qed.

Lemma assign_invariant (Q : string * json -> Prop) d cm acc :
  (forall k cs v, (k, cs) ∈ cm -> first_candidate d cs = Some v -> Q (k, v)) ->
  NoDup acc.*1 -> Forall Q acc ->
  NoDup (fold_left (assign_step d) cm acc).*1 /\ Forall Q (fold_left (assign_step d) cm acc).
Proof.
  revert acc. induction cm as [|[k0 cs0] cm IH]; intros acc HQ Hnd Hacc; simpl; [done|].
  apply IH.
  - intros k cs v Hin. apply HQ. by right.
  - destruct (first_candidate d cs0); [by apply dict_set_NoDup | done].
  - destruct (first_candidate d cs0) as [v|] eqn:Hv; [|done].
    apply dict_set_Forall; [|done]. eapply HQ; [by left | done].
Qed.

Lemma colmap_NoDup : NoDup colmap.*1.
Proof. apply (bool_decide_unpack (NoDup colmap.*1)). vm_compute. exact I. Qed.

Lemma coerce_step_get out k0 k :
  dict_get k (coerce_step out k0)
  = if decide (k = k0) then (if is_date_key k then _coerce_date else id) <$> dict_get k out
    else dict_get k out.
Proof.
  unfold coerce_step. destruct (decide (k = k0)) as [->|Hne].
  - destruct (is_date_key k0); [|by destruct (dict_get k0 out)].
    destruct (dict_get k0 out) as [v|] eqn:Hv; simpl; [|by rewrite Hv].
    rewrite dict_get_set. by rewrite decide_True.
  - destruct (is_date_key k0); [|done].
    destruct (dict_get k0 out) as [v|]; [|done].
    rewrite dict_get_set. by rewrite decide_False.
Qed.

Lemma coerce_fold_get ks out k :
  NoDup ks ->
  dict_get k (fold_left coerce_step ks out)
  = if decide (k ∈ ks) then (if is_date_key k then _coerce_date else id) <$> dict_get k out
    else dict_get k out.
Proof.
  revert out. induction ks as [|k0 ks IH]; intros out Hnd.
  - done.
  - apply NoDup_cons in Hnd as [Hk0 Hnd].
    cbn [fold_left]. rewrite IH by done. rewrite !coerce_step_get.
    destruct (decide (k = k0)) as [->|Hne].
    + rewrite decide_False by done. rewrite decide_True; [done | by left].
    + destruct (decide (k ∈ ks)) as [Hin|Hin].
      * rewrite decide_True; [done | by right].
      * rewrite decide_False; [done|]. rewrite elem_of_cons. naive_solver.
Qed.

Lemma coerce_dates_get out k :
  NoDup out.*1 ->
  dict_get k (coerce_dates out)
  = (if is_date_key k then _coerce_date else id) <$> dict_get k out.
Proof.
  intros Hnd. unfold coerce_dates. rewrite coerce_fold_get by done.
  destruct (decide (k ∈ out.*1)) as [Hin|Hin]; [done|].
  apply dict_get_None in Hin. rewrite Hin. by destruct (is_date_key k).
Qed.

Lemma coerce_fold_invariant (Q : string * json -> Prop) ks out :
  (forall k v, Q (k, v) -> Q (k, _coerce_date v)) ->
  Forall Q out -> Forall Q (fold_left coerce_step ks out).
Proof.
  intros HQ. revert out. induction ks as [|k0 ks IH]; intros out Hout; [done|].
  cbn [fold_left]. apply IH. unfold coerce_step.
  destruct (is_date_key k0); [|done].
  destruct (dict_get k0 out) as [v|] eqn:Hv; [|done].
  apply dict_set_Forall; [|done]. apply HQ.
  rewrite Forall_forall in Hout. by apply Hout, dict_get_Some_elem_of.
Qed.

Lemma coerce_fold_keys ks out : (fold_left coerce_step ks out).*1 = out.*1.
Proof.
  revert out. induction ks as [|k0 ks IH]; intros out; [done|].
  cbn [fold_left]. rewrite IH. unfold coerce_step.
  destruct (is_date_key k0); [|done].
  destruct (dict_get k0 out) as [v|] eqn:Hv; [|done].
  rewrite dict_set_keys. rewrite decide_True; [done|].
  apply dict_get_is_Some. by exists v.
Qed.

Lemma assign_aliases_NoDup d : NoDup (assign_aliases d).*1.
Proof.
  apply (assign_invariant (fun _ => True) d colmap []); [done | constructor | constructor].
Qed.

Lemma length_append (s1 s2 : string) :
  String.length (s1 +:+ s2) = (String.length s1 + String.length s2)%nat.
Proof.
  induction s1 as [|c s1 IH]; [done|].
  change (String c s1 +:+ s2) with (String c (s1 +:+ s2)). simpl. by rewrite IH.
Qed.

Lemma isoformat_not_empty dt : isoformat dt <> "".
Proof.
  unfold isoformat. intros Heq. apply (f_equal String.length) in Heq.
  rewrite !length_append in Heq. simpl in Heq. lia.
Qed.

Lemma coerce_date_usable v :
  not_none_or_empty v = true -> not_none_or_empty (_coerce_date v) = true.
Proof.
  destruct v as [|b|n|f|s|items|members]; simpl; try done.
  destruct (dateutil_parse s) as [dt|]; [|done].
  intros _. pose proof (isoformat_not_empty (dt_date dt)).
  by destruct (isoformat (dt_date dt)).
Qed.

Lemma normalize_row_get d k :
  dict_get k (_normalize_row d)
  = (if is_date_key k then _coerce_date else id) <$> dict_get k (assign_aliases d).
Proof. apply coerce_dates_get, assign_aliases_NoDup. Qed.

Lemma is_date_key_iff k :
  is_date_key k = true <-> k ∈ DATE_KEYS \/ PyStr.endswith (PyStr.lower k) "date" = true.
Proof.
  unfold is_date_key. rewrite orb_true_iff, bool_decide_eq_true. done.
Qed.

(** C2.  For every input mapping [d] and every canonical field [std_col]
    with alias list [candidates]: the first loop of [_normalize_row] assigns
    to [std_col] the value of the first alias, in list order, that is a key
    of [d] with a value other than null and the empty string, whatever the
    later aliases hold; when no alias qualifies, [std_col] is not a key of
    the output at all.  The value assigned is the one the output holds (for
    the date fields, after the date coercion of the second loop). *)
Theorem normalize_row_first_alias (d : dict) (std_col : string) (candidates : list string) :
  (std_col, candidates) ∈ colmap ->
  dict_get std_col (assign_aliases d) = first_candidate d candidates
  /\ dict_get std_col (_normalize_row d)
     = (if is_date_key std_col then _coerce_date else id) <$> first_candidate d candidates
  /\ (forall v, first_candidate d candidates = Some v <->
        exists before c after,
          candidates = before ++ c :: after
          /\ dict_get c d = Some v /\ v <> JNull /\ v <> JStr ""
          /\ Forall (fun c' => dict_get c' d = None \/ dict_get c' d = Some JNull
                               \/ dict_get c' d = Some (JStr "")) before)
  /\ (first_candidate d candidates = None <->
        Forall (fun c => dict_get c d = None \/ dict_get c d = Some JNull
                         \/ dict_get c d = Some (JStr "")) candidates)
  /\ (std_col ∈ (_normalize_row d).*1 <-> is_Some (first_candidate d candidates))
  /\ (first_candidate d candidates = None -> dict_get std_col (_normalize_row d) = None).
Proof.
  intros Hin.
  assert (dict_get std_col (assign_aliases d) = first_candidate d candidates) as Hassign.
  { apply assign_entry; [apply colmap_NoDup | done | done]. }
  split_and!.
  - done.
  - by rewrite normalize_row_get, Hassign.
  - apply first_candidate_Some.
  - apply first_candidate_None.
  - rewrite <-dict_get_is_Some, normalize_row_get, Hassign, fmap_is_Some. done.
  - intros Hnone. by rewrite normalize_row_get, Hassign, Hnone.
Qed.

(** C3.  The second loop of [_normalize_row] passes through [_coerce_date]
    the value of every assigned field whose name is in [DATE_KEYS] or, in
    lower case, ends with ["date"].  [_coerce_date] is total: a string that
    [dateutil] parses becomes the ISO calendar date of the result, whatever
    its time of day; a string on which [dateutil] raises, and a value that
    is not a string, come back unchanged.  With a [dateutil] that reads
    ["March 3, 2020"], ["2020-03-03"] and ["03/03/2020"] as 3 March 2020 and
    raises on ["not a date"], the first three become ["2020-03-03"] and the
    last is unchanged. *)
Theorem normalize_row_date_coercion (d : dict) (k : string) (dt1 dt2 dt3 : datetime) :
  k ∈ DATE_KEYS \/ PyStr.endswith (PyStr.lower k) "date" = true ->
  dateutil_parse "March 3, 2020" = Some dt1 -> dt_date dt1 = Date 2020 3 3 ->
  dateutil_parse "2020-03-03" = Some dt2 -> dt_date dt2 = Date 2020 3 3 ->
  dateutil_parse "03/03/2020" = Some dt3 -> dt_date dt3 = Date 2020 3 3 ->
  dateutil_parse "not a date" = None ->
  dict_get k (_normalize_row d) = _coerce_date <$> dict_get k (assign_aliases d)
  /\ (forall s dt, dateutil_parse s = Some dt ->
        _coerce_date (JStr s) = JStr (isoformat (dt_date dt)))
  /\ (forall s, dateutil_parse s = None -> _coerce_date (JStr s) = JStr s)
  /\ (forall v, (forall s, v <> JStr s) -> _coerce_date v = v)
  /\ _coerce_date (JStr "March 3, 2020") = JStr "2020-03-03"
  /\ _coerce_date (JStr "2020-03-03") = JStr "2020-03-03"
  /\ _coerce_date (JStr "03/03/2020") = JStr "2020-03-03"
  /\ _coerce_date (JStr "not a date") = JStr "not a date".
Proof.
  intros Hk%is_date_key_iff H1 D1 H2 D2 H3 D3 H4. split_and!.
  - by rewrite normalize_row_get, Hk.
  - intros s dt Hs. simpl. by rewrite Hs.
  - intros s Hs. simpl. by rewrite Hs.
  - intros v Hv. destruct v as [|b|n|f|s|items|members]; try done. by destruct (Hv s).
  - simpl. by rewrite H1, D1.
  - simpl. by rewrite H2, D2.
  - simpl. by rewrite H3, D3.
  - simpl. by rewrite H4.
Qed.

(** The canonical fields the coercion applies to. *)
Lemma date_fields_of_colmap :
  filter (fun k => is_date_key k = true) colmap.*1 = ["documentDate"; "recordingDate"; "saleDate"].
Proof. vm_compute. reflexivity. Qed.

(** C10.  For every input mapping, every key of the output of
    [_normalize_row] is one of the 16 canonical field names of the alias
    table, and every value of the output is neither null nor the empty
    string. *)
Theorem normalize_row_invariant (d : dict) :
  Forall (fun kv => kv.1 ∈ colmap.*1 /\ kv.2 <> JNull /\ kv.2 <> JStr "") (_normalize_row d)
  /\ length colmap = 16%nat
  /\ NoDup (_normalize_row d).*1.
Proof.
  split_and!; [| reflexivity |].
  - eapply Forall_impl with
      (P := fun kv => kv.1 ∈ colmap.*1 /\ not_none_or_empty kv.2 = true).
    2:{ intros [k v] [? ?%not_none_or_empty_iff]. done. }
    apply coerce_fold_invariant.
    + intros k v [? ?]. split; [done | by apply coerce_date_usable].
    + apply (assign_invariant _ d colmap []); [|constructor|constructor].
      intros k cs v Hin Hv. split.
      * apply list_elem_of_fmap. by exists (k, cs).
      * by eapply first_candidate_usable.
  - unfold _normalize_row, coerce_dates. rewrite coerce_fold_keys.
    apply assign_aliases_NoDup.
Qed.

End WithDateLib.

(** The hypotheses of C2 and C3 hold of the reference libraries. *)
Lemma normalize_row_first_alias_witness :
  ("lenderName",
   ["lender"; "lender1"; "lenderName"; "lenderName1"; "lenderLastName"; "beneficiary"]) ∈ colmap
  /\ dict_get "lenderName"
       (_normalize_row (H := Reference.reference_lib)
          [("lenderName1", JStr "Second Bank"); ("lender", JStr ""); ("lender1", JStr "First Bank")])
     = Some (JStr "First Bank").
Proof.
  assert (("lenderName",
           ["lender"; "lender1"; "lenderName"; "lenderName1"; "lenderLastName"; "beneficiary"])
          ∈ colmap) as Hin.
  { apply (bool_decide_unpack _). vm_compute. exact I. }
  split; [exact Hin|].
  destruct (normalize_row_first_alias (H := Reference.reference_lib)
              [("lenderName1", JStr "Second Bank"); ("lender", JStr ""); ("lender1", JStr "First Bank")]
              _ _ Hin) as (_ & -> & _).
  vm_compute. reflexivity.
Defined.

Lemma normalize_row_date_coercion_witness :
  dict_get "saleDate"
    (_normalize_row (H := Reference.reference_lib) [("saleTransDate", JStr "March 3, 2020")])
  = Some (JStr "2020-03-03")
  /\ _coerce_date (H := Reference.reference_lib) (JStr "not a date") = JStr "not a date".
Proof.
  destruct (normalize_row_date_coercion (H := Reference.reference_lib)
              [("saleTransDate", JStr "March 3, 2020")] "saleDate"
              (Reference.midnight (Date 2020 3 3)) (Reference.midnight (Date 2020 3 3))
              (Reference.midnight (Date 2020 3 3)))
    as (Hget & _ & _ & _ & _ & _ & _ & Hnot);
    try (vm_compute; reflexivity).
  - left. apply (bool_decide_unpack _). vm_compute. exact I.
  - split; [|exact Hnot]. rewrite Hget. vm_compute. reflexivity.
Defined.

End NormalizeFacts.

(** ** Facts about the frame operations *)

Module PandasFacts.

Lemma cells_get_set c c' v cells :
  cells_get c' (cells_set c v cells) = if decide (c' = c) then Some v else cells_get c' cells.
Proof.
  induction cells as [|[c0 v0] cells IH]; simpl.
  - destruct (String.eqb_spec c' c); by destruct (decide (c' = c)).
  - destruct (String.eqb_spec c c0) as [->|Hc]; simpl.
    + destruct (String.eqb_spec c' c0); by destruct (decide (c' = c0)).
    + rewrite IH. destruct (String.eqb_spec c' c0) as [->|?]; [|done].
      by destruct (decide (c0 = c)).
Qed.

Lemma cell_at_set c c' v (i : nat) cells :
  cell_at c' (i, cells_set c v cells) = if decide (c' = c) then v else cell_at c' (i, cells).
Proof. unfold cell_at. simpl. rewrite cells_get_set. by destruct (decide (c' = c)). Qed.

Lemma cells_get_tabulate (f : string -> cell) c cols :
  cells_get c (map (fun c => (c, f c)) cols) = if decide (c ∈ cols) then Some (f c) else None.
Proof.
  induction cols as [|c0 cols IH]; [done|]. cbn [map cells_get].
  destruct (String.eqb_spec c c0) as [->|Hne].
  - rewrite decide_True; [done | by left].
  - rewrite IH. destruct (decide (c ∈ cols)) as [Hin|Hin].
    + rewrite decide_True; [done | by right].
    + rewrite decide_False; [done|]. rewrite elem_of_cons. naive_solver.
Qed.

Lemma zip_with_same {A B C D} (f : B -> C -> D) (g : A -> B) (h : A -> C) (l : list A) :
  zip_with f (g <$> l) (h <$> l) = (fun x => f (g x) (h x)) <$> l.
Proof. induction l as [|x l IH]; simpl; [done | f_equal; apply IH]. Qed.

Lemma zip_with_same_l {A C D} (f : A -> C -> D) (h : A -> C) (l : list A) :
  zip_with f l (h <$> l) = (fun x => f x (h x)) <$> l.
Proof. induction l as [|x l IH]; simpl; [done | f_equal; apply IH]. Qed.

Lemma set_column_not_fresh c s df :
  rows df <> [] ->
  set_column c s df
  = Frame (if has_column c df then columns df else columns df ++ [c])
          (zip_with (fun r iv => (r.1, cells_set c iv.2 r.2)) (rows df) s).
Proof. intros Hrows. unfold set_column. by destruct (columns df), (rows df). Qed.

(** Setting a column computed row by row from the frame itself. *)
Lemma set_column_rowwise c (F : row -> cell) df :
  rows df <> [] ->
  set_column c ((fun r => (r.1, F r)) <$> rows df) df
  = Frame (if has_column c df then columns df else columns df ++ [c])
          ((fun r => (r.1, cells_set c (F r) r.2)) <$> rows df).
Proof.
  intros Hrows. rewrite set_column_not_fresh by done. f_equal.
  by rewrite zip_with_same_l.
Qed.

Lemma to_datetime_get_column `{DateLib} c df :
  to_datetime (get_column c df)
  = (fun r => (r.1, to_datetime_cell (cell_at c <$> rows df) (cell_at c r))) <$> rows df.
Proof.
  unfold to_datetime, get_column. rewrite <-!list_fmap_compose. done.
Qed.

Lemma has_column_true c df : has_column c df = true <-> c ∈ columns df.
Proof. apply bool_decide_eq_true. Qed.

End PandasFacts.
Import PandasFacts.

(** ** Facts about the table builder *)

Module TableFacts.

Section WithDateLib.
Context `{DateLib}.

Lemma coerce_column_rows df col :
  rows df <> [] ->
  coerce_column df col
  = Frame (columns df)
          ((fun r => (r.1, if has_column col df
                           then cells_set col (to_datetime_cell (cell_at col <$> rows df)
                                                                (cell_at col r)) r.2
                           else r.2)) <$> rows df).
Proof.
  intros Hrows. unfold coerce_column. destruct (has_column col df) eqn:Hcol.
  - rewrite to_datetime_get_column, set_column_rowwise by done. by rewrite Hcol.
  - destruct df as [cols rs]. simpl. f_equal.
    rewrite <-(list_fmap_id rs) at 1. apply list_fmap_ext. by intros ? [? ?].
Qed.

(** The loop over the date columns changes the cells of those columns that
    the frame has, and nothing else. *)
Lemma fold_coerce_columns cols df0 :
  NoDup cols -> rows df0 <> [] ->
  columns (fold_left coerce_column cols df0) = columns df0
  /\ Forall2
       (fun r0 r =>
          r.1 = r0.1
          /\ forall c, cell_at c r
                       = if bool_decide (c ∈ cols) && has_column c df0
                         then to_datetime_cell (cell_at c <$> rows df0) (cell_at c r0)
                         else cell_at c r0)
       (rows df0) (rows (fold_left coerce_column cols df0)).
Proof.
  intros Hnd Hrows. induction cols as [|col cols IH] using rev_ind.
  - split; [done|]. apply Forall_Forall2_diag, Forall_true. by intros r.
  - apply NoDup_app in Hnd as (Hnd & Hcol & _).
    destruct (IH Hnd) as [Hcols Hall]. clear IH.
    assert (col ∉ cols) as Hfresh by (intros Hin; apply (Hcol _ Hin); by left).
    rewrite fold_left_app. cbn [fold_left].
    set (df1 := fold_left coerce_column cols df0) in *.
    assert (rows df1 <> []) as Hrows1.
    { intros Heq. rewrite Heq in Hall. by inversion Hall. }
    assert (cell_at col <$> rows df1 = cell_at col <$> rows df0) as Hctx.
    { clear -Hall Hfresh. induction Hall as [|r0 r l0 l [_ Hr] _ IH]; [done|].
      rewrite !fmap_cons, IH, Hr. by rewrite bool_decide_eq_false_2. }
    assert (has_column col df1 = has_column col df0) as Hhas.
    { unfold has_column. by rewrite Hcols. }
    rewrite coerce_column_rows by done. cbn [columns rows]. split; [done|].
    apply Forall2_fmap_r. eapply Forall2_impl; [exact Hall|].
    intros r0 r [Hidx Hcells]. simpl. split; [done|]. intros c.
    rewrite Hhas, Hctx.
    destruct (decide (c = col)) as [->|Hne].
    + rewrite bool_decide_eq_true_2 by (apply elem_of_app; right; by left).
      destruct (has_column col df0); simpl.
      * rewrite cell_at_set, decide_True by done. f_equal.
        rewrite Hcells. by rewrite bool_decide_eq_false_2.
      * rewrite <-(surjective_pairing r), Hcells. by rewrite bool_decide_eq_false_2.
    + assert (cell_at c (r.1, if has_column col df0
                              then cells_set col
                                     (to_datetime_cell (cell_at col <$> rows df0) (cell_at col r)) r.2
                              else r.2) = cell_at c r) as ->.
      { destruct (has_column col df0).
        - rewrite cell_at_set, decide_False by done. by destruct r.
        - by destruct r. }
      rewrite Hcells.
      replace (bool_decide (c ∈ cols ++ [col])) with (bool_decide (c ∈ cols)); [done|].
      apply bool_decide_ext. rewrite elem_of_app, list_elem_of_singleton. naive_solver.
Qed.

Abbreviation add_keys :=
  (fold_left (fun (acc : list string) (k : string) =>
                if bool_decide (k ∈ acc) then acc else acc ++ [k])).

Lemma add_keys_seen ks acc k : k ∈ acc -> k ∈ add_keys ks acc.
Proof.
  revert acc. induction ks as [|k0 ks IH]; intros acc Hk; simpl; [done|].
  apply IH. case_bool_decide; [done|]. apply elem_of_app. by left.
Qed.

Lemma add_keys_new ks acc k : k ∈ ks -> k ∈ add_keys ks acc.
Proof.
  revert acc. induction ks as [|k0 ks IH]; intros acc Hk; simpl.
  - by apply elem_of_nil in Hk.
  - apply elem_of_cons in Hk as [->|Hk]; [|by apply IH].
    apply add_keys_seen. case_bool_decide; [done|]. apply elem_of_app. right. by left.
Qed.

Lemma union_keys_seen records seen k : k ∈ seen -> k ∈ union_keys seen records.
Proof.
  revert seen. induction records as [|r records IH]; intros seen Hk; simpl; [done|].
  by apply IH, add_keys_seen.
Qed.

Lemma union_keys_record records seen (r : dict) k :
  r ∈ records -> k ∈ r.*1 -> k ∈ union_keys seen records.
Proof.
  revert seen. induction records as [|r0 records IH]; intros seen Hr Hk; simpl.
  - by apply elem_of_nil in Hr.
  - apply elem_of_cons in Hr as [->|Hr]; [|by apply IH].
    by apply union_keys_seen, add_keys_new.
Qed.

Lemma record_cell_absent c (r : dict) : c ∉ r.*1 -> record_cell c r = VNaN.
Proof. intros Hc%dict_get_None. unfold record_cell. by rewrite Hc. Qed.

(** Row [i] of [pd.DataFrame(records)] holds the values of record [i]. *)
Lemma of_records_row records i (r : dict) :
  records !! i = Some r ->
  exists row, rows (of_records records) !! i = Some row
              /\ row.1 = i /\ forall c, cell_at c row = record_cell c r.
Proof.
  intros Hi. eexists. split_and!.
  - unfold of_records. cbn [rows]. rewrite list_lookup_imap, Hi. done.
  - done.
  - intros c. unfold cell_at. cbn [snd]. rewrite cells_get_tabulate.
    destruct (decide (c ∈ union_keys [] records)) as [Hin|Hin]; [done|].
    simpl. symmetry. apply record_cell_absent. intros Hc. apply Hin.
    eapply union_keys_record; [|done]. by eapply list_elem_of_lookup_2.
Qed.

Lemma of_records_column records c :
  cell_at c <$> rows (of_records records) = record_cell c <$> records.
Proof.
  apply list_eq. intros i. rewrite !list_lookup_fmap.
  destruct (records !! i) as [r|] eqn:Hi.
  - destruct (of_records_row _ _ _ Hi) as (row & -> & _ & Hc). simpl. by rewrite Hc.
  - unfold of_records. cbn [rows]. by rewrite list_lookup_imap, Hi.
Qed.

(** The rows [make_dataframe] keeps before it builds the frame. *)
Abbreviation kept_rows records :=
  (filter (fun r : dict => row_has_text r = true) (_normalize_row <$> records)).

Lemma make_dataframe_unfold records :
  make_dataframe records
  = match kept_rows records with
    | [] => empty_frame
    | _ :: _ => fold_left coerce_column typed_date_columns (of_records (kept_rows records))
    end.
Proof. reflexivity. Qed.

(** The frame [make_dataframe] returns, cell by cell. *)
Lemma make_dataframe_cells records i (r : dict) :
  kept_rows records !! i = Some r ->
  columns (make_dataframe records) = union_keys [] (kept_rows records)
  /\ length (rows (make_dataframe records)) = length (kept_rows records)
  /\ exists row,
       rows (make_dataframe records) !! i = Some row
       /\ row.1 = i
       /\ forall c,
            cell_at c row
            = if bool_decide (c ∈ typed_date_columns) && has_column c (make_dataframe records)
              then to_datetime_cell (record_cell c <$> kept_rows records) (record_cell c r)
              else record_cell c r.
Proof.
  intros Hi. rewrite make_dataframe_unfold.
  destruct (kept_rows records) as [|r0 kept0] eqn:Hkept; [done|].
  rewrite <-Hkept in *. clear r0 kept0 Hkept.
  assert (rows (of_records (kept_rows records)) <> []) as Hrows.
  { destruct (of_records_row _ _ _ Hi) as (row & Hrow & _). intros Heq. by rewrite Heq in Hrow. }
  destruct (fold_coerce_columns typed_date_columns (of_records (kept_rows records)))
    as [Hcols Hall]; [|done|].
  { apply (bool_decide_unpack _). vm_compute. exact I. }
  split_and!.
  - by rewrite Hcols.
  - rewrite <-(Forall2_length _ _ _ Hall). unfold of_records. cbn [rows].
    by rewrite length_imap.
  - destruct (of_records_row _ _ _ Hi) as (row0 & Hrow0 & Hidx0 & Hcell0).
    destruct (Forall2_lookup_l _ _ _ _ _ Hall Hrow0) as (row & Hrow & Hidx & Hcell).
    exists row. split_and!; [done | congruence |].
    intros c. rewrite Hcell, Hcell0, of_records_column.
    unfold has_column at 2. by rewrite Hcols.
Qed.

Lemma row_has_text_false (r : dict) :
  row_has_text r = false <->
  Forall (fun v => exists s, v = JStr s /\ PyStr.strip s = "") r.*2.
Proof.
  unfold row_has_text. induction r.*2 as [|v vs IH]; simpl; [by split|].
  rewrite orb_false_iff, IH, Forall_cons.
  assert (str_strip_truthy v = false <-> exists s, v = JStr s /\ PyStr.strip s = "") as ->; [|done].
  destruct v as [|b|n|f|s|items|members]; simpl;
    try (split; [done | by intros (? & ? & _)]).
  split.
  - intros Hs. exists s. split; [done|]. by destruct (PyStr.strip s).
  - intros (s' & [= <-] & ->). done.
Qed.

Lemma assign_nothing d cm acc :
  (forall k cs, (k, cs) ∈ cm -> first_candidate d cs = None) ->
  fold_left (assign_step d) cm acc = acc.
Proof.
  revert acc. induction cm as [|[k0 cs0] cm IH]; intros acc Hnone; simpl; [done|].
  rewrite (Hnone k0 cs0) by (by left). apply IH. intros k cs Hin.
  apply (Hnone k cs). by right.
Qed.

(** A record without a usable value under any alias normalises to [{}]. *)
Lemma normalize_row_nothing (r : dict) :
  (forall std_col candidates c,
      (std_col, candidates) ∈ colmap -> c ∈ candidates ->
      dict_get c r = None \/ dict_get c r = Some JNull \/ dict_get c r = Some (JStr "")) ->
  _normalize_row r = [].
Proof.
  intros Hnone. unfold _normalize_row, assign_aliases.
  rewrite assign_nothing; [done|].
  intros k cs Hin. apply NormalizeFacts.first_candidate_None, Forall_forall.
  intros c Hc. by eapply Hnone.
Qed.

Lemma to_datetime_cell_typed col v :
  to_datetime_cell col v = VNaT \/ exists t, to_datetime_cell col v = VTime t.
Proof.
  destruct v as [x| |t| |]; cbn [to_datetime_cell]; eauto.
  destruct (isna (VObj x)); [by left|].
  destruct (pandas_parse col x); eauto.
Qed.

(** C6.  [make_dataframe] normalises every record and keeps, in order, the
    rows that have a value whose string form is not blank: the frame has one
    row per kept row, row [i] carrying index [i] and the values of kept row
    [i] (the cells of the three date columns are settled in C7).  A row is
    dropped iff each of its values is a string that strips to the empty
    string; a record without a usable value under any alias normalises to
    an empty row and so contributes no row; when no row is kept the result
    is the empty frame, which has no rows. *)
Theorem make_dataframe_drops_blank_rows (records : list dict) :
  length (rows (make_dataframe records)) = length (kept_rows records)
  /\ (forall i (r : dict),
        kept_rows records !! i = Some r ->
        exists row,
          rows (make_dataframe records) !! i = Some row
          /\ row.1 = i
          /\ forall c, c ∉ typed_date_columns -> cell_at c row = record_cell c r)
  /\ (forall r : dict,
        row_has_text r = false <->
        Forall (fun v => exists s, v = JStr s /\ PyStr.strip s = "") r.*2)
  /\ (kept_rows records = [] ->
        make_dataframe records = empty_frame /\ rows (make_dataframe records) = [])
  /\ (forall (r : dict) before after,
        (forall std_col candidates c,
            (std_col, candidates) ∈ colmap -> c ∈ candidates ->
            dict_get c r = None \/ dict_get c r = Some JNull \/ dict_get c r = Some (JStr "")) ->
        _normalize_row r = []
        /\ make_dataframe (before ++ r :: after) = make_dataframe (before ++ after)).
Proof.
  split_and!.
  - destruct (kept_rows records) as [|r0 kept0] eqn:Hkept.
    + by rewrite make_dataframe_unfold, Hkept.
    + rewrite <-Hkept. eapply (make_dataframe_cells records 0 r0). by rewrite Hkept.
  - intros i r Hi. destruct (make_dataframe_cells records i r Hi) as (_ & _ & row & ? & ? & Hc).
    exists row. split_and!; [done..|]. intros c Hcol. rewrite Hc.
    by rewrite bool_decide_eq_false_2.
  - apply row_has_text_false.
  - intros Hkept. by rewrite make_dataframe_unfold, Hkept.
  - intros r before after Hr. pose proof (normalize_row_nothing r Hr) as Hnil.
    split; [done|]. rewrite !make_dataframe_unfold.
    replace (kept_rows (before ++ r :: after)) with (kept_rows (before ++ after)); [done|].
    rewrite !fmap_app, !filter_app, fmap_cons, Hnil. by rewrite filter_cons_False.
Qed.

(** C7.  A date that does not parse is not an error.  In the field
    normaliser a string on which [dateutil] raises is returned as it is.  In
    the table builder, for each of [documentDate], [recordingDate] and
    [saleDate] that the frame has, every kept row is still a row of the
    frame, and its cell in that column is a timestamp or NaT; it is NaT when
    the value does not parse. *)
Theorem malformed_date_not_an_error (records : list dict) (i : nat) (r : dict) (c : string) :
  kept_rows records !! i = Some r ->
  c ∈ typed_date_columns ->
  has_column c (make_dataframe records) = true ->
  length (rows (make_dataframe records)) = length (kept_rows records)
  /\ (exists row,
        rows (make_dataframe records) !! i = Some row
        /\ row.1 = i
        /\ cell_at c row
           = to_datetime_cell (record_cell c <$> kept_rows records) (record_cell c r)
        /\ (cell_at c row = VNaT \/ exists t, cell_at c row = VTime t)
        /\ (forall v, dict_get c r = Some v ->
                      pandas_parse (record_cell c <$> kept_rows records) v = None ->
                      cell_at c row = VNaT /\ isna (cell_at c row) = true))
  /\ (forall s, dateutil_parse s = None -> _coerce_date (JStr s) = JStr s).
Proof.
  intros Hi Hc Hcol.
  destruct (make_dataframe_cells records i r Hi) as (_ & Hlen & row & Hrow & Hidx & Hcell).
  split_and!; [done| |].
  - exists row. specialize (Hcell c).
    rewrite Hcol, bool_decide_eq_true_2 in Hcell by done. cbn [andb] in Hcell.
    split_and!; [done..| |].
    + rewrite Hcell. apply to_datetime_cell_typed.
    + intros v Hv Hparse.
      assert (cell_at c row = VNaT) as ->; [|done].
      assert (record_cell c r = VObj v) as Hrc by (unfold record_cell; by rewrite Hv).
      rewrite Hcell, Hrc. cbn [to_datetime_cell].
      destruct (isna (VObj v)); [done|]. by rewrite Hparse.
  - intros s Hs. simpl. by rewrite Hs.
Qed.

End WithDateLib.

(** The hypotheses of C7 hold of a record whose sale date does not parse. *)
Lemma malformed_date_not_an_error_witness :
  filter (fun r : dict => row_has_text r = true)
    (_normalize_row (H := Reference.reference_lib)
       <$> [[("saleTransDate", JStr "not a date"); ("lender", JStr "Acme Bank")]]) !! 0%nat
  = Some [("lenderName", JStr "Acme Bank"); ("saleDate", JStr "not a date")]
  /\ "saleDate" ∈ typed_date_columns
  /\ exists row,
       rows (make_dataframe (H := Reference.reference_lib)
               [[("saleTransDate", JStr "not a date"); ("lender", JStr "Acme Bank")]]) !! 0%nat
       = Some row
       /\ cell_at "saleDate" row = VNaT.
Proof.
  assert ("saleDate" ∈ typed_date_columns) as Hc.
  { apply (bool_decide_unpack _). vm_compute. exact I. }
  split_and!; [vm_compute; reflexivity | exact Hc |].
  destruct (malformed_date_not_an_error (H := Reference.reference_lib)
              [[("saleTransDate", JStr "not a date"); ("lender", JStr "Acme Bank")]]
              0 [("lenderName", JStr "Acme Bank"); ("saleDate", JStr "not a date")] "saleDate")
    as (_ & (row & Hrow & _ & _ & _ & Hnat) & _);
    [vm_compute; reflexivity | exact Hc | vm_compute; reflexivity |].
  exists row. split; [exact Hrow|].
  apply (Hnat (JStr "not a date")); vm_compute; reflexivity.
Defined.

End TableFacts.

(** ** Facts about the focus view *)

Module FocusFacts.

Lemma filter_fmap {A B} (f : A -> B) (P : B -> Prop) `{!forall y, Decision (P y)} (l : list A) :
  filter P (f <$> l) = f <$> filter (fun x => P (f x)) l.
Proof.
  induction l as [|x l IH]; [done|].
  rewrite fmap_cons, !filter_cons, IH. by destruct (decide (P (f x))).
Qed.

Lemma filter_all {A} (P : A -> Prop) `{!forall x, Decision (P x)} (l : list A) :
  (forall x, P x) -> filter P l = l.
Proof.
  intros HP. induction l as [|x l IH]; [done|].
  rewrite filter_cons_True by done. by rewrite IH.
Qed.

Lemma set_column_fresh {A} c (h : A -> nat * cell) (l : list A) :
  set_column c (h <$> l) empty_frame = Frame [c] ((fun x => ((h x).1, [(c, (h x).2)])) <$> l).
Proof. unfold set_column. simpl. f_equal. by rewrite <-list_fmap_compose. Qed.

Lemma set_column_mapped {A} c (g : A -> row) (h : A -> nat * cell) (l : list A) view :
  rows view = g <$> l -> l <> [] ->
  set_column c (h <$> l) view
  = Frame (if has_column c view then columns view else columns view ++ [c])
          ((fun x => ((g x).1, cells_set c (h x).2 (g x).2)) <$> l).
Proof.
  intros Hrows Hl. rewrite set_column_not_fresh.
  - by rewrite Hrows, zip_with_same.
  - rewrite Hrows. by destruct l.
Qed.

Lemma notna_replace_cell mapping v : notna (replace_cell mapping v) = notna v.
Proof.
  destruct v as [x| |t| |]; try done.
  destruct x as [|b|n|f|s|items|members]; try done.
  simpl. by destruct (list_find _ mapping) as [[? [? ?]]|].
Qed.

(** Decide [c in df.columns] for a frame whose column labels are known. *)
Ltac known_columns :=
  repeat match goal with
         | |- context [has_column ?c (Frame ?cols ?rs)] =>
             let b := eval vm_compute in (bool_decide (c ∈ cols)) in
             change (has_column c (Frame cols rs)) with b; cbv iota
         end.

(** Settle the comparisons of column labels that [cell_at_set] leaves. *)
Ltac cell_cases :=
  repeat first [ rewrite decide_True by done | rewrite decide_False by done ].

Section WithDateLib.
Context `{DateLib}.

(** The view after the filter: one row for each row of [df] that passes
    the mask, built from that row. *)
Lemma focus_filtered_rows df best :
  rows df <> [] ->
  "Purchase Date" ∈ columns (focus_filtered df best)
  /\ exists build : row -> row,
       rows (focus_filtered df best)
       = build <$> filter (fun r => focus_mask df r = true) (rows df)
       /\ forall r, (build r).1 = r.1
                    /\ cell_at "Purchase Date" (build r)
                       = to_datetime_cell (cell_at best <$> rows df) (cell_at best r).
Proof.
  intros Hrows. unfold focus_filtered, focus_mask.
  rewrite to_datetime_get_column, set_column_fresh. cbn [fst snd].
  unfold replace, get_column. rewrite <-!list_fmap_compose.
  destruct (has_column "loanType" df) eqn:Hlt, (has_column "lenderName" df) eqn:Hln.
  - erewrite (set_column_mapped "Loan Type"); [|reflexivity|done].
    erewrite (set_column_mapped "Lender Name"); [|reflexivity|done].
    known_columns. unfold filter_rows, compose. cbn [rows columns andb fst snd].
    split; [set_solver|]. eexists. split.
    + rewrite filter_fmap. f_equal; apply list_filter_iff; intros r;
        rewrite !cell_at_set; cell_cases; rewrite ?notna_replace_cell; done.
    + intros r. split; [done|]. rewrite !cell_at_set; cell_cases; done.
  - erewrite (set_column_mapped "Loan Type"); [|reflexivity|done].
    known_columns. unfold filter_rows, compose. cbn [rows columns andb fst snd].
    split; [set_solver|]. eexists. split.
    + rewrite filter_fmap. f_equal; apply list_filter_iff; intros r;
        rewrite !cell_at_set; cell_cases; rewrite ?notna_replace_cell; done.
    + intros r. split; [done|]. rewrite !cell_at_set; cell_cases; done.
  - erewrite (set_column_mapped "Lender Name"); [|reflexivity|done].
    known_columns. unfold filter_rows, compose. cbn [rows columns andb fst snd].
    split; [set_solver|]. eexists. split.
    + rewrite filter_fmap. f_equal; apply list_filter_iff; intros r;
        rewrite !cell_at_set; cell_cases; done.
    + intros r. split; [done|]. rewrite !cell_at_set; cell_cases; done.
  - known_columns. cbn [rows columns andb].
    split; [set_solver|]. eexists. split.
    + rewrite (filter_all (fun _ : row => true = true)); done.
    + intros r. split; done.
Qed.

Lemma desc_na_last_trans a b c : desc_na_last a b -> desc_na_last b c -> desc_na_last a c.
Proof. destruct a, b, c; simpl; try done. lia. Qed.

Lemma desc_na_last_total a b : desc_na_last a b \/ desc_na_last b a.
Proof. destruct a, b; simpl; auto. lia. Qed.

Lemma sort_values_desc_sorted c df :
  StronglySorted desc_na_last (sort_key c <$> rows (sort_values_desc c df)).
Proof.
  unfold sort_values_desc. cbn [rows].
  apply (StronglySorted_fmap _ (fun r1 r2 => desc_na_last (sort_key c r1) (sort_key c r2)));
    [done|].
  apply StronglySorted_merge_sort.
  - intros r1 r2 r3. apply desc_na_last_trans.
  - intros r1 r2. apply desc_na_last_total.
Qed.

Lemma sort_values_desc_index c df : (rows (sort_values_desc c df)).*1 ≡ₚ (rows df).*1.
Proof. unfold sort_values_desc. cbn [rows]. by rewrite merge_sort_Permutation. Qed.

Lemma series_map_get_column f c df :
  series_map f (get_column c df) = (fun r => (r.1, f (cell_at c r))) <$> rows df.
Proof. unfold series_map, get_column. by rewrite <-list_fmap_compose. Qed.

Lemma dt_date_string_sort_key c r :
  dt_date_string_cell (cell_at c r) = purchase_date_cell (sort_key c r).
Proof. unfold sort_key. by destruct (cell_at c r). Qed.

Lemma empty_false df : empty df = false <-> columns df <> [] /\ rows df <> [].
Proof. unfold empty. destruct (columns df), (rows df); naive_solver. Qed.

(** The table the function returns when the filtered view has rows. *)
Lemma focus_finish view :
  "Purchase Date" ∈ columns view -> rows view <> [] ->
  let sorted := focus_sorted view in
  let ordered := filter (fun c => has_column c sorted = true)
                        ["Year"; "Purchase Date"; "Loan Type"; "Lender Name"] in
  let selected := select_columns ordered sorted in
  let result :=
    if has_column "Purchase Date" selected
    then set_column "Purchase Date"
           (series_map dt_date_string_cell (get_column "Purchase Date" selected)) selected
    else selected in
  has_column "Purchase Date" result = true
  /\ (rows result).*1 = (rows sorted).*1
  /\ (rows sorted).*1 ≡ₚ (rows view).*1
  /\ cell_at "Purchase Date" <$> rows result
     = purchase_date_cell <$> (sort_key "Purchase Date" <$> rows sorted).
Proof.
  intros Hpd Hrows sorted ordered selected result.
  assert (rows sorted ≡ₚ
            (fun r => (r.1, cells_set "Year" (dt_year_cell (cell_at "Purchase Date" r)) r.2))
              <$> rows view) as Hperm.
  { unfold sorted, focus_sorted. rewrite series_map_get_column, set_column_rowwise by done.
    unfold sort_values_desc. cbn [rows]. apply merge_sort_Permutation. }
  assert ("Purchase Date" ∈ columns sorted) as Hpd_sorted.
  { unfold sorted, focus_sorted. rewrite series_map_get_column, set_column_rowwise by done.
    cbn [sort_values_desc columns]. destruct (has_column "Year" view); [done|].
    apply elem_of_app. by left. }
  assert ("Purchase Date" ∈ ordered) as Hpd_ordered.
  { apply list_elem_of_filter. split; [by apply has_column_true | set_solver]. }
  assert (rows sorted <> []) as Hrows_sorted.
  { intros Heq. rewrite Heq in Hperm. apply Permutation_nil_l in Hperm.
    symmetry in Hperm. apply fmap_nil_inv in Hperm. done. }
  assert (has_column "Purchase Date" selected = true) as Hpd_selected.
  { by apply has_column_true. }
  assert (rows selected <> []) as Hrows_selected.
  { unfold selected, select_columns. cbn [rows]. intros Heq%fmap_nil_inv. done. }
  unfold result. rewrite Hpd_selected, series_map_get_column, set_column_rowwise by done.
  rewrite Hpd_selected. cbn [rows]. split_and!.
  - by apply has_column_true.
  - unfold selected, select_columns. cbn [rows]. rewrite <-!list_fmap_compose.
    by apply list_fmap_ext.
  - rewrite Hperm, <-list_fmap_compose. done.
  - unfold selected, select_columns. cbn [rows]. rewrite <-!list_fmap_compose.
    apply list_fmap_ext. intros i r _. cbn [compose fst snd].
    rewrite cell_at_set, decide_True by done.
    rewrite <-dt_date_string_sort_key. f_equal.
    unfold cell_at at 1. cbn [snd]. rewrite cells_get_tabulate, decide_True by done. done.
Qed.

Lemma focus_filtered_empty df best :
  rows df <> [] -> empty (focus_filtered df best) = true -> rows (focus_filtered df best) = [].
Proof.
  intros Hrows Hempty. destruct (focus_filtered_rows df best Hrows) as [Hpd _].
  unfold empty in Hempty.
  destruct (columns (focus_filtered df best)); [by apply elem_of_nil in Hpd|].
  by destruct (rows (focus_filtered df best)).
Qed.

(** The index labels of the focus view are those of the rows of [df] that
    pass the mask. *)
Lemma focus_index df best :
  empty df = false -> best_date_column df = Some best ->
  (rows (make_focus_loans_table df)).*1
  ≡ₚ (filter (fun r => focus_mask df r = true) (rows df)).*1.
Proof.
  intros Hne Hbest. unfold make_focus_loans_table. rewrite Hne, Hbest.
  apply empty_false in Hne as [_ Hrows].
  destruct (focus_filtered_rows df best Hrows) as (Hpd & build & Hview & Hbuild).
  assert ((rows (focus_filtered df best)).*1
          = (filter (fun r => focus_mask df r = true) (rows df)).*1) as Hidx.
  { rewrite Hview, <-list_fmap_compose. apply list_fmap_ext. intros i r _. apply Hbuild. }
  destruct (empty (focus_filtered df best)) eqn:He.
  - by rewrite Hidx.
  - apply empty_false in He as [_ Hrows_view].
    destruct (focus_finish _ Hpd Hrows_view) as (_ & -> & -> & _). by rewrite Hidx.
Qed.

(** The "Purchase Date" cells of the focus view are the sort keys of line
    214, in order. *)
Lemma focus_keys df :
  exists keys : list (option Timestamp),
    (has_column "Purchase Date" (make_focus_loans_table df) = true ->
     cell_at "Purchase Date" <$> rows (make_focus_loans_table df) = purchase_date_cell <$> keys)
    /\ StronglySorted desc_na_last keys.
Proof.
  unfold make_focus_loans_table. destruct (empty df) eqn:Hne.
  { exists []. split; [|constructor]. intros Hpd%has_column_true.
    unfold empty in Hne. destruct (columns df); [by apply elem_of_nil in Hpd|].
    by destruct (rows df). }
  destruct (best_date_column df) as [best|]; [|exists []; split; [done | constructor]].
  apply empty_false in Hne as [_ Hrows].
  destruct (empty (focus_filtered df best)) eqn:He.
  { exists []. split; [|constructor]. by rewrite focus_filtered_empty. }
  destruct (focus_filtered_rows df best Hrows) as (Hpd & _).
  apply empty_false in He as [_ Hrows_view].
  destruct (focus_finish _ Hpd Hrows_view) as (_ & _ & _ & Hcells).
  eexists. split; [intros _; exact Hcells|]. apply sort_values_desc_sorted.
Qed.

Lemma StronglySorted_lookup {A} (R : relation A) (l : list A) i j a b :
  StronglySorted R l -> (i < j)%nat -> l !! i = Some a -> l !! j = Some b -> R a b.
Proof.
  intros Hs. revert i j. induction Hs as [|x l Hs IH Hall]; intros i j Hij Hi Hj.
  - done.
  - destruct j as [|j]; [lia|]. destruct i as [|i]; simpl in *.
    + injection Hi as <-. rewrite Forall_forall in Hall.
      eapply Hall, list_elem_of_lookup_2, Hj.
    + eapply (IH i j); [lia | done..].
Qed.

(** C4, as the code has it.  For every non-empty table that has one of the
    date columns [saleDate], [documentDate], [recordingDate] and at least
    one of the columns [loanType], [lenderName], the rows of the focus view
    are, up to the order the sort gives them, the rows of the table that
    the retention rule keeps: with both columns, one of the two values is
    not null; with one column, its value is not null.  A non-empty table
    without any of the three date columns has an empty focus view. *)
Theorem focus_retention (df : DataFrame) :
  empty df = false ->
  (forall best,
      best_date_column df = Some best ->
      has_column "loanType" df = true \/ has_column "lenderName" df = true ->
      (rows (make_focus_loans_table df)).*1
      ≡ₚ (filter (fun r => retention_rule df r = true) (rows df)).*1)
  /\ (best_date_column df = None -> rows (make_focus_loans_table df) = []).
Proof.
  intros Hne. split.
  - intros best Hbest Hcols.
    assert (filter (fun r => focus_mask df r = true) (rows df)
            = filter (fun r => retention_rule df r = true) (rows df)) as <-.
    { apply list_filter_iff. intros r. unfold focus_mask, retention_rule.
      destruct (has_column "loanType" df), (has_column "lenderName" df); try done.
      by destruct Hcols. }
    by apply (focus_index df best).
  - intros Hbest. unfold make_focus_loans_table. by rewrite Hne, Hbest.
Qed.

(** C5.  The "Purchase Date" column of the focus view shows, row by row,
    the sort keys of the view in descending order with the missing ones
    last: of two rows with a date the earlier one has the later or the same
    timestamp, and no row without a date comes before a row with one. *)
Theorem focus_sorted_by_purchase_date (df : DataFrame) :
  exists keys : list (option Timestamp),
    (has_column "Purchase Date" (make_focus_loans_table df) = true ->
     (get_column "Purchase Date" (make_focus_loans_table df)).*2 = purchase_date_cell <$> keys)
    /\ (forall i j ti tj,
          (i < j)%nat -> keys !! i = Some (Some ti) -> keys !! j = Some (Some tj) -> tj <= ti)
    /\ (forall i j tj,
          (i < j)%nat -> keys !! i = Some None -> keys !! j = Some (Some tj) -> False).
Proof.
  destruct (focus_keys df) as (keys & Hcells & Hsorted).
  exists keys. split_and!.
  - intros Hpd. unfold get_column. rewrite <-list_fmap_compose. by apply Hcells.
  - intros i j ti tj Hij Hi Hj. exact (StronglySorted_lookup _ _ _ _ _ _ Hsorted Hij Hi Hj).
  - intros i j tj Hij Hi Hj. exact (StronglySorted_lookup _ _ _ _ _ _ Hsorted Hij Hi Hj).
Qed.

End WithDateLib.

(** The hypothesis of C4 holds of a table with two rows, of which the rule
    keeps the first. *)
Lemma focus_retention_witness :
  empty (Frame ["loanType"; "saleDate"]
           [(0%nat, [("loanType", VObj (JStr "CONV")); ("saleDate", VObj (JStr "2019-07-01"))]);
            (1%nat, [("loanType", VNaN); ("saleDate", VObj (JStr "2020-01-01"))])]) = false
  /\ (rows (make_focus_loans_table (H := Reference.reference_lib)
              (Frame ["loanType"; "saleDate"]
                 [(0%nat, [("loanType", VObj (JStr "CONV")); ("saleDate", VObj (JStr "2019-07-01"))]);
                  (1%nat, [("loanType", VNaN); ("saleDate", VObj (JStr "2020-01-01"))])]))).*1
     ≡ₚ [0%nat].
Proof.
  split; [reflexivity|].
  destruct (focus_retention (H := Reference.reference_lib)
              (Frame ["loanType"; "saleDate"]
                 [(0%nat, [("loanType", VObj (JStr "CONV")); ("saleDate", VObj (JStr "2019-07-01"))]);
                  (1%nat, [("loanType", VNaN); ("saleDate", VObj (JStr "2020-01-01"))])])
              eq_refl) as [Hkeep _].
  exact (Hkeep "saleDate" eq_refl (or_introl eq_refl)).
Defined.

(** C4 as worded fails on a table that has a lender but no date column: the
    rule retains its row, the focus view is empty. *)
Lemma focus_retention_counterexample :
  empty (Frame ["lenderName"] [(0%nat, [("lenderName", VObj (JStr "Acme Bank"))])]) = false
  /\ (filter (fun r => retention_rule
                         (Frame ["lenderName"]
                            [(0%nat, [("lenderName", VObj (JStr "Acme Bank"))])]) r = true)
        [(0%nat, [("lenderName", VObj (JStr "Acme Bank"))])]).*1 = [0%nat]
  /\ ~ ((rows (make_focus_loans_table (H := Reference.reference_lib)
                (Frame ["lenderName"] [(0%nat, [("lenderName", VObj (JStr "Acme Bank"))])]))).*1
        ≡ₚ (filter (fun r => retention_rule
                               (Frame ["lenderName"]
                                  [(0%nat, [("lenderName", VObj (JStr "Acme Bank"))])]) r = true)
              [(0%nat, [("lenderName", VObj (JStr "Acme Bank"))])]).*1).
Proof.
  split_and!; [reflexivity | reflexivity |].
  vm_compute. intros Hperm. apply Permutation_nil_l in Hperm. discriminate.
Qed.

(** A table with a date column and neither [loanType] nor [lenderName]:
    no filter applies and its rows stay in the focus view. *)
Example focus_without_loan_columns :
  make_focus_loans_table (H := Reference.reference_lib)
    (Frame ["saleDate"] [(0%nat, [("saleDate", VObj (JStr "2019-07-01"))])])
  = Frame ["Year"; "Purchase Date"]
      [(0%nat, [("Year", VObj (JInt 2019)); ("Purchase Date", VObj (JStr "2019-07-01"))])].
Proof. vm_compute. reflexivity. Qed.

(** Three rows, one without a date: latest first, the undated row last. *)
Example focus_sort_example :
  (get_column "Purchase Date"
     (make_focus_loans_table (H := Reference.reference_lib)
        (Frame ["saleDate"]
           [(0%nat, [("saleDate", VObj (JStr "2019-07-01"))]);
            (1%nat, [("saleDate", VObj (JStr "unknown"))]);
            (2%nat, [("saleDate", VObj (JStr "2020-07-01"))])])))
  = [(2%nat, VObj (JStr "2020-07-01")); (0%nat, VObj (JStr "2019-07-01")); (1%nat, VNA)].
Proof. vm_compute. reflexivity. Qed.

End FocusFacts.

(** ** The whole pipeline on the sample document *)

Module EndToEnd.

(** Replace a closed term by its value. *)
Ltac eval_closed t := let v := eval vm_compute in t in change t with v.

(** C9.  With a [dateutil] that reads ["2019-07-01"] as 1 July 2019 and a
    [pandas] that reads it as the timestamp of that midnight, harvesting,
    normalising, building the table and building the focus view of the
    sample document gives one row: Year 2019, Purchase Date ["2019-07-01"],
    Loan Type ["Conventional"], Lender Name ["Acme Bank"]. *)
Theorem sample_document_focus_view `{DateLib} (dt : datetime) :
  dateutil_parse "2019-07-01" = Some dt ->
  dt_date dt = Date 2019 7 1 ->
  pandas_parse [VObj (JStr "2019-07-01")] (JStr "2019-07-01") = Some 1561939200000000000 ->
  make_focus_loans_table (make_dataframe (harvest_records sample_document))
  = Frame ["Year"; "Purchase Date"; "Loan Type"; "Lender Name"]
      [(0%nat, [("Year", VObj (JInt 2019));
                ("Purchase Date", VObj (JStr "2019-07-01"));
                ("Loan Type", VObj (JStr "Conventional"));
                ("Lender Name", VObj (JStr "Acme Bank"))])].
Proof.
  intros Hdp Hdate Hpp.
  assert (_coerce_date (JStr "2019-07-01") = JStr "2019-07-01") as Hcoerce.
  { unfold _coerce_date. rewrite Hdp, Hdate. vm_compute. reflexivity. }
  eval_closed (harvest_records sample_document).
  assert (_normalize_row [("amountLoan", JInt 250000); ("loanTypeCode", JStr "CONV");
              ("lender1", JStr "Acme Bank"); ("saleTransDate", JStr "2019-07-01")]
          = [("loanAmount", JInt 250000); ("loanType", JStr "CONV");
             ("lenderName", JStr "Acme Bank"); ("saleDate", JStr "2019-07-01")]) as Hrow.
  { unfold _normalize_row.
    match goal with |- context [assign_aliases ?d] => eval_closed (assign_aliases d) end.
    unfold coerce_dates. cbn [fmap list_fmap fst fold_left]. unfold coerce_step.
    repeat match goal with |- context [is_date_key ?k] => eval_closed (is_date_key k) end.
    cbv beta iota.
    match goal with |- context [dict_get ?k ?d] => eval_closed (dict_get k d) end.
    cbv beta iota. rewrite Hcoerce. vm_compute. reflexivity. }
  unfold make_dataframe. cbn [map]. rewrite Hrow.
  match goal with |- context [filter ?P ?l] => eval_closed (filter P l) end.
  cbv beta iota zeta.
  match goal with |- context [of_records ?l] => eval_closed (of_records l) end.
  unfold typed_date_columns. cbn [fold_left]. unfold coerce_column.
  repeat match goal with
         | |- context [has_column ?c (Frame ?cols ?rs)] =>
             let b := eval vm_compute in (bool_decide (c ∈ cols)) in
             change (has_column c (Frame cols rs)) with b; cbv iota
         end.
  match goal with |- context [get_column ?c ?df] => eval_closed (get_column c df) end.
  unfold to_datetime. cbn [map fmap list_fmap fst snd]. unfold to_datetime_cell.
  match goal with |- context [isna ?v] => eval_closed (isna v) end.
  cbv iota. rewrite Hpp. vm_compute. reflexivity.
Qed.

Lemma sample_document_focus_view_witness :
  make_focus_loans_table (H := Reference.reference_lib)
    (make_dataframe (H := Reference.reference_lib) (harvest_records sample_document))
  = Frame ["Year"; "Purchase Date"; "Loan Type"; "Lender Name"]
      [(0%nat, [("Year", VObj (JInt 2019));
                ("Purchase Date", VObj (JStr "2019-07-01"));
                ("Loan Type", VObj (JStr "Conventional"));
                ("Lender Name", VObj (JStr "Acme Bank"))])].
Proof.
  apply (sample_document_focus_view (H := Reference.reference_lib)
           (Reference.midnight (Date 2019 7 1))); vm_compute; reflexivity.
Defined.

End EndToEnd.

(** ** Nesting depth and the harvester *)

Module DepthFacts.

Lemma harvest_records_nest n v : harvest_records (nest n v) = harvest_records v.
Proof.
  induction n as [|n IH]; [done|].
  change (nest (S n) v) with (JArr [nest n v]).
  rewrite harvest_records_unfold. simpl. by rewrite app_nil_r.
Qed.

Lemma depth_nest n v : depth (nest n v) = (n + depth v)%nat.
Proof.
  induction n as [|n IH]; [done|].
  change (nest (S n) v) with (JArr [nest n v]).
  simpl. rewrite IH. lia.
Qed.

(** A record under seven lists, under a dict, under three more lists. *)
Example harvest_records_deep :
  harvest_records
    (nest 3 (JObj [("data", nest 7 (JObj [("lender", JStr "Acme Bank")]));
                   ("price", JInt 1)]))
  = [ [("data", nest 7 (JObj [("lender", JStr "Acme Bank")])); ("price", JInt 1)];
      [("lender", JStr "Acme Bank")] ].
Proof. vm_compute. reflexivity. Qed.









(** With 1000 frames free, the default recursion limit: a record under 998
    lists is found, a record under 999 lists is a fault. *)
Example harvest_records_default_limit :
  harvest_records_in 1000 (nest 998 (JObj [("lender", JStr "Acme Bank")]))
  = Returned [[("lender", JStr "Acme Bank")]]
  /\ harvest_records_in 1000 (nest 999 (JObj [("lender", JStr "Acme Bank")])) = DepthFault.
Proof. split; vm_compute; reflexivity. Qed.



End DepthFacts.

(** ** The rows and columns of the focus view *)

Module FocusRows.
Import FocusFacts.

Section WithDateLib.
Context `{DateLib}.

(** Every row of the filtered view is built from a row of [df] that passes
    the mask: same index label, the parsed date of the chosen date column,
    the relabelled loan type and the lender as it is. *)
Lemma focus_filtered_cells df best :
  rows df <> [] ->
  columns (focus_filtered df best)
  = ["Purchase Date"]
      ++ (if has_column "loanType" df then ["Loan Type"] else [])
      ++ (if has_column "lenderName" df then ["Lender Name"] else [])
  /\ Forall
       (fun rv =>
          exists r, r ∈ rows df
            /\ focus_mask df r = true
            /\ rv.1 = r.1
            /\ cell_at "Purchase Date" rv
               = to_datetime_cell (cell_at best <$> rows df) (cell_at best r)
            /\ (has_column "loanType" df = true ->
                cell_at "Loan Type" rv = replace_cell loan_type_names (cell_at "loanType" r))
            /\ (has_column "lenderName" df = true ->
                cell_at "Lender Name" rv = cell_at "lenderName" r))
       (rows (focus_filtered df best)).
Proof.
  intros Hrows. unfold focus_filtered, focus_mask.
  rewrite to_datetime_get_column, set_column_fresh. cbn [fst snd].
  unfold replace, get_column. rewrite <-!list_fmap_compose.
  destruct (has_column "loanType" df) eqn:Hlt, (has_column "lenderName" df) eqn:Hln.
  - erewrite (set_column_mapped "Loan Type"); [|reflexivity|done].
    erewrite (set_column_mapped "Lender Name"); [|reflexivity|done].
    known_columns. unfold filter_rows, compose. cbn [rows columns andb fst snd app].
    split; [done|]. apply Forall_forall. intros rv [Hkeep Hin]%list_elem_of_filter.
    apply list_elem_of_fmap in Hin as (r & -> & Hr). exists r.
    rewrite !cell_at_set in Hkeep. revert Hkeep.
    rewrite !cell_at_set; cell_cases. rewrite notna_replace_cell. done.
  - erewrite (set_column_mapped "Loan Type"); [|reflexivity|done].
    known_columns. unfold filter_rows, compose. cbn [rows columns andb fst snd app].
    split; [done|]. apply Forall_forall. intros rv [Hkeep Hin]%list_elem_of_filter.
    apply list_elem_of_fmap in Hin as (r & -> & Hr). exists r.
    rewrite !cell_at_set in Hkeep. revert Hkeep.
    rewrite !cell_at_set; cell_cases. rewrite notna_replace_cell. done.
  - erewrite (set_column_mapped "Lender Name"); [|reflexivity|done].
    known_columns. unfold filter_rows, compose. cbn [rows columns andb fst snd app].
    split; [done|]. apply Forall_forall. intros rv [Hkeep Hin]%list_elem_of_filter.
    apply list_elem_of_fmap in Hin as (r & -> & Hr). exists r.
    rewrite !cell_at_set in Hkeep. revert Hkeep.
    rewrite !cell_at_set; cell_cases. done.
  - known_columns. cbn [rows columns andb app].
    split; [done|]. apply Forall_forall. intros rv Hin.
    apply list_elem_of_fmap in Hin as (r & -> & Hr). exists r. done.
Qed.

(** The rows of the returned table when the filtered view has rows: each
    comes from a row of the view, with the date shown as a string, the year
    of that date, and the other cells as they are. *)
Lemma focus_finish_cells view :
  "Purchase Date" ∈ columns view -> "Year" ∉ columns view -> rows view <> [] ->
  let sorted := focus_sorted view in
  let ordered := filter (fun c => has_column c sorted = true)
                        ["Year"; "Purchase Date"; "Loan Type"; "Lender Name"] in
  let selected := select_columns ordered sorted in
  let result :=
    if has_column "Purchase Date" selected
    then set_column "Purchase Date"
           (series_map dt_date_string_cell (get_column "Purchase Date" selected)) selected
    else selected in
  columns result
  = filter (fun c => c ∈ columns view ++ ["Year"])
           ["Year"; "Purchase Date"; "Loan Type"; "Lender Name"]
  /\ Forall
       (fun r' =>
          exists rv, rv ∈ rows view
            /\ r'.1 = rv.1
            /\ cell_at "Purchase Date" r' = dt_date_string_cell (cell_at "Purchase Date" rv)
            /\ cell_at "Year" r' = dt_year_cell (cell_at "Purchase Date" rv)
            /\ forall c, c ∈ ["Loan Type"; "Lender Name"] -> c ∈ columns view ->
                         cell_at c r' = cell_at c rv)
       (rows result).
Proof.
  intros Hpd Hyear Hrows sorted ordered selected result.
  assert (columns sorted = columns view ++ ["Year"]) as Hcols.
  { unfold sorted, focus_sorted. rewrite series_map_get_column, set_column_rowwise by done.
    cbn [sort_values_desc columns]. unfold has_column. by rewrite bool_decide_eq_false_2. }
  assert (rows sorted ≡ₚ
            (fun r => (r.1, cells_set "Year" (dt_year_cell (cell_at "Purchase Date" r)) r.2))
              <$> rows view) as Hperm.
  { unfold sorted, focus_sorted. rewrite series_map_get_column, set_column_rowwise by done.
    unfold sort_values_desc. cbn [rows]. apply merge_sort_Permutation. }
  assert (forall c, c ∈ ordered <->
                    c ∈ columns view ++ ["Year"]
                    /\ c ∈ ["Year"; "Purchase Date"; "Loan Type"; "Lender Name"]) as Hordered.
  { intros c. unfold ordered. rewrite list_elem_of_filter, has_column_true, Hcols. done. }
  assert ("Purchase Date" ∈ ordered) as Hpd_ordered.
  { apply Hordered. split; [apply elem_of_app; by left | set_solver]. }
  assert ("Year" ∈ ordered) as Hyear_ordered.
  { apply Hordered. split; [apply elem_of_app; right; by left | set_solver]. }
  assert (rows sorted <> []) as Hrows_sorted.
  { intros Heq. rewrite Heq in Hperm. apply Permutation_nil_l in Hperm.
    symmetry in Hperm. apply fmap_nil_inv in Hperm. done. }
  assert (has_column "Purchase Date" selected = true) as Hpd_selected.
  { by apply has_column_true. }
  assert (rows selected <> []) as Hrows_selected.
  { unfold selected, select_columns. cbn [rows]. intros Heq%fmap_nil_inv. done. }
  unfold result. rewrite Hpd_selected, series_map_get_column, set_column_rowwise by done.
  rewrite Hpd_selected. cbn [rows columns]. split.
  - unfold selected, select_columns, ordered. cbn [columns].
    apply list_filter_iff. intros c. by rewrite has_column_true, Hcols.
  - apply Forall_forall. intros r' Hin.
    apply list_elem_of_fmap in Hin as (rs & -> & Hin).
    unfold selected, select_columns in Hin. cbn [rows] in Hin.
    apply list_elem_of_fmap in Hin as (r2 & -> & Hin).
    rewrite Hperm in Hin. apply list_elem_of_fmap in Hin as (rv & -> & Hin).
    exists rv. cbn [fst snd].
    assert (forall c, c ∈ ordered ->
              cell_at c (rv.1, (fun c0 => (c0, cell_at c0
                 (rv.1, cells_set "Year" (dt_year_cell (cell_at "Purchase Date" rv)) rv.2)))
                 <$> ordered)
              = if decide (c = "Year") then dt_year_cell (cell_at "Purchase Date" rv)
                else cell_at c rv) as Hsel.
    { intros c Hc. unfold cell_at at 1. cbn [snd].
      rewrite cells_get_tabulate, decide_True by done. cbn [default].
      rewrite cell_at_set. by destruct rv. }
    split_and!; [done..| | |].
    + rewrite cell_at_set, decide_True by done. f_equal.
      rewrite Hsel by done. by rewrite decide_False.
    + rewrite cell_at_set, decide_False by done.
      rewrite Hsel by done. by rewrite decide_True.
    + intros c Hc Hview.
      assert (c <> "Purchase Date" /\ c <> "Year") as [? ?].
      { apply elem_of_cons in Hc as [->|Hc]; [done|].
        apply list_elem_of_singleton in Hc as ->. done. }
      rewrite cell_at_set, decide_False by done.
      rewrite Hsel; [by rewrite decide_False|].
      apply Hordered. split; [apply elem_of_app; by left | set_solver].
Qed.

(** Every row of the focus view comes from a row of the table. *)
Lemma focus_rows_sound df best :
  empty df = false -> best_date_column df = Some best ->
  Forall
    (fun r' =>
       exists r, r ∈ rows df
         /\ focus_mask df r = true
         /\ r'.1 = r.1
         /\ cell_at "Purchase Date" r'
            = dt_date_string_cell (to_datetime_cell (cell_at best <$> rows df) (cell_at best r))
         /\ cell_at "Year" r'
            = dt_year_cell (to_datetime_cell (cell_at best <$> rows df) (cell_at best r))
         /\ (has_column "loanType" df = true ->
             cell_at "Loan Type" r' = replace_cell loan_type_names (cell_at "loanType" r))
         /\ (has_column "lenderName" df = true ->
             cell_at "Lender Name" r' = cell_at "lenderName" r))
    (rows (make_focus_loans_table df)).
Proof.
  intros Hne Hbest. unfold make_focus_loans_table. rewrite Hne, Hbest.
  apply empty_false in Hne as [_ Hrows].
  destruct (focus_filtered_cells df best Hrows) as [Hcols Hview].
  destruct (empty (focus_filtered df best)) eqn:He.
  { rewrite focus_filtered_empty by done. constructor. }
  apply empty_false in He as [_ Hrows_view].
  assert ("Purchase Date" ∈ columns (focus_filtered df best)) as Hpd.
  { rewrite Hcols. by left. }
  assert ("Year" ∉ columns (focus_filtered df best)) as Hyear.
  { rewrite Hcols. destruct (has_column "loanType" df), (has_column "lenderName" df);
      cbn [app]; set_solver. }
  destruct (focus_finish_cells _ Hpd Hyear Hrows_view) as [_ Hfin].
  rewrite Forall_forall in Hview. eapply Forall_impl; [exact Hfin|].
  intros r' (rv & Hrv & Hidx & Hdate & Hyr & Hother).
  destruct (Hview rv Hrv) as (r & Hr & Hmask & Hidx' & Hpdv & Hlt & Hln).
  exists r. split_and!; [done | done | congruence | by rewrite Hdate, Hpdv
                         | by rewrite Hyr, Hpdv | |].
  - intros Hhas. rewrite Hother; [by apply Hlt | set_solver |].
    rewrite Hcols, Hhas. set_solver.
  - intros Hhas. rewrite Hother; [by apply Hln | set_solver |].
    rewrite Hcols, Hhas. destruct (has_column "loanType" df); set_solver.
Qed.

Lemma length_filter_le {A} (P : A -> Prop) `{!forall x, Decision (P x)} (l : list A) :
  (length (filter P l) <= length l)%nat.
Proof.
  induction l as [|x l IH]; [done|]. rewrite filter_cons.
  destruct (decide (P x)); simpl; lia.
Qed.

Lemma focus_length_le (df : DataFrame) :
  (length (rows (make_focus_loans_table df)) <= length (rows df))%nat.
Proof.
  destruct (empty df) eqn:Hne.
  { unfold make_focus_loans_table. by rewrite Hne. }
  destruct (best_date_column df) as [best|] eqn:Hbest.
  - pose proof (focus_index df best Hne Hbest) as Hperm.
    apply Permutation_length in Hperm. rewrite !length_fmap in Hperm.
    rewrite Hperm. apply length_filter_le.
  - unfold make_focus_loans_table. rewrite Hne, Hbest. simpl. lia.
Qed.

(** X1.  The focus view never has more rows than the table it is built
    from (the "loan rows" count of the summary never exceeds the number of
    rows of the table). *)
Theorem focus_rows_at_most_table (df : DataFrame) :
  (length (rows (make_focus_loans_table df)) <= length (rows df))%nat.
Proof. apply focus_length_le. Qed.

(** X2.  In every row of the focus view of a non-empty table, Year is the
    calendar year of the date shown under Purchase Date, and the two are
    null together. *)
Theorem focus_year_matches_date (df : DataFrame) :
  empty df = false ->
  Forall
    (fun r' =>
       exists key : option Timestamp,
         cell_at "Purchase Date" r' = purchase_date_cell key
         /\ cell_at "Year" r'
            = match key with
              | Some t => VObj (JInt (timestamp_year t))
              | None => VNaN
              end)
    (rows (make_focus_loans_table df)).
Proof.
  intros Hne. destruct (best_date_column df) as [best|] eqn:Hbest.
  - eapply Forall_impl; [exact (focus_rows_sound df best Hne Hbest)|].
    intros r' (r & _ & _ & _ & -> & -> & _).
    destruct (TableFacts.to_datetime_cell_typed (cell_at best <$> rows df) (cell_at best r))
      as [->|[t ->]].
    + by exists None.
    + by exists (Some t).
  - unfold make_focus_loans_table. rewrite Hne, Hbest. constructor.
Qed.

Lemma replace_loan_type_other v :
  v <> VObj (JStr "CONV") -> replace_cell loan_type_names v = v.
Proof.
  intros Hv. destruct v as [x| |t| |]; try done.
  destruct x as [|b|n|f|s|items|members]; try done.
  unfold replace_cell, loan_type_names. cbn [list_find fst snd fmap option_fmap option_map].
  repeat case_decide; simplify_eq; done.
Qed.

(** X3.  Every row of the focus view of a non-empty table comes from the
    row of the table with the same index label; its Loan Type is the
    [loanType] of that row with the code ["CONV"] shown as
    ["Conventional"] and every other value (other codes, numbers, nulls)
    unchanged, and its Lender Name is the [lenderName] of that row. *)
Theorem focus_loan_type_and_lender (df : DataFrame) :
  empty df = false ->
  Forall
    (fun r' =>
       exists r, r ∈ rows df
         /\ r'.1 = r.1
         /\ (has_column "loanType" df = true ->
             cell_at "Loan Type" r' = replace_cell loan_type_names (cell_at "loanType" r))
         /\ (has_column "lenderName" df = true ->
             cell_at "Lender Name" r' = cell_at "lenderName" r))
    (rows (make_focus_loans_table df))
  /\ replace_cell loan_type_names (VObj (JStr "CONV")) = VObj (JStr "Conventional")
  /\ (forall v, v <> VObj (JStr "CONV") -> replace_cell loan_type_names v = v).
Proof.
  intros Hne. split_and!; [|done|apply replace_loan_type_other].
  destruct (best_date_column df) as [best|] eqn:Hbest.
  - eapply Forall_impl; [exact (focus_rows_sound df best Hne Hbest)|].
    intros r' (r & ? & _ & ? & _ & _ & ? & ?). by exists r.
  - unfold make_focus_loans_table. rewrite Hne, Hbest. constructor.
Qed.

(** X4.  The date column is chosen once for the whole table: when the
    table has a [saleDate] column, Purchase Date of every row is read from
    [saleDate], and a row whose [saleDate] is missing shows no date,
    whatever its [documentDate] and [recordingDate] hold. *)
Theorem focus_date_from_sale_date (df : DataFrame) :
  empty df = false ->
  has_column "saleDate" df = true ->
  Forall
    (fun r' =>
       exists r, r ∈ rows df
         /\ r'.1 = r.1
         /\ cell_at "Purchase Date" r'
            = dt_date_string_cell
                (to_datetime_cell (cell_at "saleDate" <$> rows df) (cell_at "saleDate" r))
         /\ (isna (cell_at "saleDate" r) = true ->
             cell_at "Purchase Date" r' = VNA /\ cell_at "Year" r' = VNaN))
    (rows (make_focus_loans_table df)).
Proof.
  intros Hne Hsale.
  assert (best_date_column df = Some "saleDate") as Hbest.
  { unfold best_date_column. cbn [list_find]. rewrite decide_True; done. }
  eapply Forall_impl; [exact (focus_rows_sound df "saleDate" Hne Hbest)|].
  intros r' (r & ? & _ & ? & Hpd & Hyr & _). exists r. split_and!; [done..|].
  intros Hna. rewrite Hpd, Hyr.
  assert (to_datetime_cell (cell_at "saleDate" <$> rows df) (cell_at "saleDate" r) = VNaT) as ->.
  { destruct (cell_at "saleDate" r) as [x| |t| |]; try done.
    cbn [to_datetime_cell]. by rewrite Hna. }
  done.
Qed.

Lemma focus_columns_shape (df : DataFrame) :
  empty df = false ->
  columns (make_focus_loans_table df)
  = match best_date_column df with
    | None => ["Purchase Date"; "Year"; "Loan Type"; "Lender Name"]
    | Some _ =>
        match rows (make_focus_loans_table df) with [] => [] | _ :: _ => ["Year"] end
        ++ ["Purchase Date"]
        ++ (if has_column "loanType" df then ["Loan Type"] else [])
        ++ (if has_column "lenderName" df then ["Lender Name"] else [])
    end.
Proof.
  intros Hne. destruct (best_date_column df) as [best|] eqn:Hbest.
  2: { unfold make_focus_loans_table. by rewrite Hne, Hbest. }
  unfold make_focus_loans_table. rewrite Hne, Hbest.
  apply empty_false in Hne as [_ Hrows].
  destruct (focus_filtered_cells df best Hrows) as [Hcols _].
  destruct (empty (focus_filtered df best)) eqn:He.
  { rewrite (focus_filtered_empty df best Hrows He). exact Hcols. }
  apply empty_false in He as [_ Hrows_view].
  assert ("Purchase Date" ∈ columns (focus_filtered df best)) as Hpd.
  { rewrite Hcols. by left. }
  assert ("Year" ∉ columns (focus_filtered df best)) as Hyear.
  { rewrite Hcols. destruct (has_column "loanType" df), (has_column "lenderName" df);
      cbn [app]; set_solver. }
  destruct (focus_finish_cells _ Hpd Hyear Hrows_view) as [Hc _].
  destruct (focus_finish _ Hpd Hrows_view) as (_ & Hidx & Hperm & _).
  cbv zeta in Hc, Hidx, Hperm. rewrite Hc.
  match goal with
  | |- _ = match rows ?result with _ => _ end ++ _ =>
      destruct (rows result) as [|r0 rest] eqn:Hres
  end.
  { exfalso. rewrite <-Hidx in Hperm. rewrite fmap_nil in Hperm.
    symmetry in Hperm. apply Permutation_nil_r in Hperm.
    by apply fmap_nil_inv in Hperm. }
  rewrite Hcols.
  destruct (has_column "loanType" df), (has_column "lenderName" df);
    vm_compute; reflexivity.
Qed.

(** X21.  The columns of the focus view of a non-empty table.  Without a
    date column the view has the four columns Purchase Date, Year, Loan
    Type, Lender Name.  With one, it has Purchase Date, then Loan Type and
    Lender Name for those of loanType and lenderName the table has, and
    Year comes first exactly when the view has a row: a view that the retention
    filter empties is returned before Year is computed. *)
Theorem focus_view_columns (df : DataFrame) :
  empty df = false ->
  columns (make_focus_loans_table df)
  = match best_date_column df with
    | None => ["Purchase Date"; "Year"; "Loan Type"; "Lender Name"]
    | Some _ =>
        match rows (make_focus_loans_table df) with [] => [] | _ :: _ => ["Year"] end
        ++ ["Purchase Date"]
        ++ (if has_column "loanType" df then ["Loan Type"] else [])
        ++ (if has_column "lenderName" df then ["Lender Name"] else [])
    end.
Proof. apply focus_columns_shape. Qed.

End WithDateLib.

Lemma focus_year_matches_date_witness :
  empty sample_table = false
  /\ Forall
       (fun r' =>
          exists key : option Timestamp,
            cell_at "Purchase Date" r' = purchase_date_cell key
            /\ cell_at "Year" r'
               = match key with
                 | Some t => VObj (JInt (timestamp_year t))
                 | None => VNaN
                 end)
       (rows (make_focus_loans_table (H := Reference.reference_lib) sample_table)).
Proof.
  split; [reflexivity|].
  apply (focus_year_matches_date (H := Reference.reference_lib) sample_table). reflexivity.
Defined.

Lemma focus_loan_type_and_lender_witness :
  empty sample_table = false
  /\ (cell_at "Loan Type" <$>
        rows (make_focus_loans_table (H := Reference.reference_lib) sample_table))
     = [VObj (JStr "Conventional")]
  /\ replace_cell loan_type_names (VObj (JStr "X99")) = VObj (JStr "X99").
Proof.
  destruct (focus_loan_type_and_lender (H := Reference.reference_lib) sample_table eq_refl)
    as (_ & _ & Hother).
  split_and!; [reflexivity | vm_compute; reflexivity | by apply Hother].
Defined.

Lemma focus_date_from_sale_date_witness :
  empty sample_lender_table = false
  /\ has_column "saleDate" sample_lender_table = true
  /\ Forall
       (fun r' =>
          exists r, r ∈ rows sample_lender_table
            /\ r'.1 = r.1
            /\ cell_at "Purchase Date" r'
               = dt_date_string_cell
                   (to_datetime_cell (H := Reference.reference_lib)
                      (cell_at "saleDate" <$> rows sample_lender_table)
                      (cell_at "saleDate" r))
            /\ (isna (cell_at "saleDate" r) = true ->
                cell_at "Purchase Date" r' = VNA /\ cell_at "Year" r' = VNaN))
       (rows (make_focus_loans_table (H := Reference.reference_lib) sample_lender_table)).
Proof.
  split_and!; [reflexivity | reflexivity |].
  apply (focus_date_from_sale_date (H := Reference.reference_lib) sample_lender_table);
    reflexivity.
Defined.

Lemma focus_view_columns_witness :
  empty sample_lender_table = false
  /\ columns (make_focus_loans_table (H := Reference.reference_lib) sample_lender_table)
     = ["Year"; "Purchase Date"; "Lender Name"].
Proof.
  split; [reflexivity|].
  rewrite (focus_view_columns (H := Reference.reference_lib) sample_lender_table);
    [vm_compute; reflexivity | reflexivity].
Defined.

(** The first row of the sample has a document date and no sale date: it
    stays in the view, undated and last. *)
Example focus_date_from_sale_date_example :
  rows (make_focus_loans_table (H := Reference.reference_lib) sample_lender_table)
  = [(1%nat, [("Year", VObj (JInt 2021)); ("Purchase Date", VObj (JStr "2021-02-03"));
              ("Lender Name", VObj (JStr "First Bank"))]);
     (0%nat, [("Year", VNaN); ("Purchase Date", VNA);
              ("Lender Name", VObj (JStr "Acme Bank"))])].
Proof. vm_compute. reflexivity. Qed.

End FocusRows.

(** ** Invariants of the table *)

Module TableInvariants.
Import TableFacts.

Abbreviation add_keys :=
  (fold_left (fun (acc : list string) (k : string) =>
                if bool_decide (k ∈ acc) then acc else acc ++ [k])).

Abbreviation kept_rows records :=
  (filter (fun r : dict => row_has_text r = true) (_normalize_row <$> records)).

Lemma cells_set_keys c v cells :
  c ∈ cells.*1 -> (cells_set c v cells).*1 = cells.*1.
Proof.
  induction cells as [|[c0 v0] cells IH]; [by intros ?%elem_of_nil|].
  cbn [cells_set]. intros Hin. destruct (String.eqb_spec c c0) as [->|Hne]; [done|].
  rewrite !fmap_cons. cbn [fst]. f_equal. apply IH.
  apply elem_of_cons in Hin as [?|?]; done.
Qed.

Lemma add_keys_NoDup ks acc : NoDup acc -> NoDup (add_keys ks acc).
Proof.
  revert acc. induction ks as [|k ks IH]; intros acc Hacc; simpl; [done|].
  apply IH. case_bool_decide; [done|].
  apply NoDup_app. split_and!; [done | | apply NoDup_singleton].
  intros x Hx ->%list_elem_of_singleton. done.
Qed.

Lemma add_keys_elem_of ks acc k : k ∈ add_keys ks acc -> k ∈ acc \/ k ∈ ks.
Proof.
  revert acc. induction ks as [|k0 ks IH]; intros acc Hk; simpl in *; [by left|].
  apply IH in Hk as [Hk|Hk]; [|right; by right].
  case_bool_decide; [by left|].
  apply elem_of_app in Hk as [?|Hk]; [by left|].
  apply list_elem_of_singleton in Hk as ->. right. by left.
Qed.

Lemma union_keys_NoDup records seen : NoDup seen -> NoDup (union_keys seen records).
Proof.
  revert seen. induction records as [|r records IH]; intros seen Hseen; simpl; [done|].
  by apply IH, add_keys_NoDup.
Qed.

Lemma union_keys_elem_of records seen k :
  k ∈ union_keys seen records -> k ∈ seen \/ exists r : dict, r ∈ records /\ k ∈ r.*1.
Proof.
  revert seen. induction records as [|r records IH]; intros seen Hk; simpl in *; [by left|].
  apply IH in Hk as [Hk|(r' & ? & ?)].
  - apply add_keys_elem_of in Hk as [?|?]; [by left|]. right. exists r. split; [by left | done].
  - right. exists r'. split; [by right | done].
Qed.

Lemma row_has_text_not_nil (r : dict) : row_has_text r = true -> r <> [].
Proof. by intros Htext ->. Qed.

Lemma imap_index {A B} (f : nat -> A -> B) (l : list A) :
  (imap (fun i x => (i, f i x)) l).*1 = seq 0 (length l).
Proof.
  apply list_eq. intros i. rewrite list_lookup_fmap, list_lookup_imap.
  destruct (l !! i) as [x|] eqn:Hi; simpl.
  - symmetry. apply lookup_seq. split; [done|]. by eapply lookup_lt_Some.
  - symmetry. apply lookup_ge_None. rewrite length_seq. by apply lookup_ge_None.
Qed.

Section WithDateLib.
Context `{DateLib}.

(** What the loop over the date columns keeps. *)
Lemma coerce_column_invariant df col :
  rows df <> [] -> well_formed df ->
  columns (coerce_column df col) = columns df
  /\ (rows (coerce_column df col)).*1 = (rows df).*1
  /\ well_formed (coerce_column df col).
Proof.
  intros Hrows [Hnd Hall]. rewrite coerce_column_rows by done. cbn [columns rows].
  split_and!; [done | | split; [done|]].
  - rewrite <-list_fmap_compose. by apply list_fmap_ext.
  - cbn [columns rows]. apply Forall_fmap. eapply Forall_impl; [exact Hall|].
    intros r Hr. cbn [compose snd]. destruct (has_column col df) eqn:Hcol; [|done].
    rewrite cells_set_keys; [done|]. rewrite Hr. by apply has_column_true.
Qed.

Lemma fold_coerce_invariant cols df :
  rows df <> [] -> well_formed df ->
  columns (fold_left coerce_column cols df) = columns df
  /\ (rows (fold_left coerce_column cols df)).*1 = (rows df).*1
  /\ well_formed (fold_left coerce_column cols df).
Proof.
  revert df. induction cols as [|col cols IH]; intros df Hrows Hwf; [done|].
  cbn [fold_left].
  destruct (coerce_column_invariant df col Hrows Hwf) as (Hc & Hi & Hw).
  destruct (IH (coerce_column df col)) as (Hc' & Hi' & Hw'); [|done|].
  { intros Heq. rewrite Heq in Hi. symmetry in Hi. apply fmap_nil_inv in Hi. done. }
  split_and!; [congruence | congruence | done].
Qed.

Lemma normalize_row_keys_canonical (d : dict) k :
  k ∈ (_normalize_row d).*1 -> k ∈ colmap.*1.
Proof.
  unfold _normalize_row, coerce_dates. rewrite NormalizeFacts.coerce_fold_keys.
  intros Hk. apply list_elem_of_fmap in Hk as ([k' v] & -> & Hkv).
  destruct (NormalizeFacts.assign_invariant (fun kv => kv.1 ∈ colmap.*1) d colmap [])
    as [_ Hall]; [| constructor | constructor |].
  - intros k0 cs v0 Hin _. apply list_elem_of_fmap. by exists (k0, cs).
  - rewrite Forall_forall in Hall. by apply (Hall _ Hkv).
Qed.

(** The shape of the table [make_dataframe] returns. *)
Lemma make_dataframe_shape (records : list dict) :
  well_formed (make_dataframe records)
  /\ columns (make_dataframe records) ⊆ colmap.*1
  /\ (rows (make_dataframe records)).*1 = seq 0 (length (rows (make_dataframe records)))
  /\ (length (rows (make_dataframe records)) <= length records)%nat
  /\ (columns (make_dataframe records) = [] <-> rows (make_dataframe records) = [])
  /\ length (rows (make_dataframe records)) = length (kept_rows records).
Proof.
  rewrite make_dataframe_unfold.
  destruct (kept_rows records) as [|r0 kept0] eqn:Hkept.
  { split_and!; try done.
    - split; [apply NoDup_nil_2 | constructor].
    - set_solver.
    - simpl. lia. }
  rewrite <-Hkept.
  assert (kept_rows records <> []) as Hne by (by rewrite Hkept).
  assert (length (kept_rows records) <= length records)%nat as Hlen.
  { etrans; [apply FocusRows.length_filter_le|]. by rewrite length_fmap. }
  set (df0 := of_records (kept_rows records)).
  assert (rows df0 <> []) as Hrows0.
  { unfold df0, of_records. cbn [rows]. rewrite Hkept. done. }
  assert (well_formed df0) as Hwf0.
  { split.
    - apply union_keys_NoDup, NoDup_nil_2.
    - unfold df0, of_records. cbn [rows columns]. apply Forall_forall.
      intros r [i Hi]%list_elem_of_lookup_1.
      apply list_lookup_imap_Some in Hi as (x & _ & ->).
      cbn [snd]. rewrite <-list_fmap_compose. apply list_fmap_id. }
  destruct (fold_coerce_invariant typed_date_columns df0 Hrows0 Hwf0) as (Hc & Hi & Hw).
  assert ((rows df0).*1 = seq 0 (length (kept_rows records))) as Hidx0.
  { unfold df0, of_records. cbn [rows]. apply imap_index. }
  assert (length (rows (fold_left coerce_column typed_date_columns df0))
          = length (kept_rows records)) as Hrows_len.
  { rewrite <-(length_fmap fst), Hi, Hidx0. apply length_seq. }
  split_and!.
  - done.
  - rewrite Hc. unfold df0, of_records. cbn [columns]. intros k Hk.
    apply union_keys_elem_of in Hk as [Hk|(r & Hr & Hk)]; [by apply elem_of_nil in Hk|].
    apply list_elem_of_filter in Hr as [_ Hr].
    apply list_elem_of_fmap in Hr as (d & -> & _).
    by apply (normalize_row_keys_canonical d).
  - by rewrite Hi, Hidx0, Hrows_len.
  - lia.
  - split.
    + intros Hnil. exfalso. rewrite Hc in Hnil.
      assert (r0 ∈ kept_rows records) as Hr0 by (rewrite Hkept; by left).
      assert (row_has_text r0 = true) as Htext.
      { by apply list_elem_of_filter in Hr0 as [? _]. }
      destruct r0 as [|[k v] r0]; [done|].
      assert (k ∈ columns df0) as Hin.
      { unfold df0, of_records. cbn [columns].
        eapply union_keys_record; [exact Hr0 | by left]. }
      rewrite Hnil in Hin. by apply elem_of_nil in Hin.
    + intros Hnil. rewrite Hnil in Hrows_len. by destruct (kept_rows records).
  - done.
Qed.

(** X5.  The table [make_dataframe] returns is well formed: its column
    labels are distinct canonical field names, every row has one cell for
    each column, the rows are numbered 0, 1, 2, ... in order, there are at
    max_list as many rows as records, and the table has no columns exactly when
    it has no rows. *)
Theorem make_dataframe_well_formed (records : list dict) :
  well_formed (make_dataframe records)
  /\ columns (make_dataframe records) ⊆ colmap.*1
  /\ (rows (make_dataframe records)).*1 = seq 0 (length (rows (make_dataframe records)))
  /\ (length (rows (make_dataframe records)) <= length records)%nat
  /\ (columns (make_dataframe records) = [] <-> rows (make_dataframe records) = []).
Proof.
  destruct (make_dataframe_shape records) as (? & ? & ? & ? & ? & _). done.
Qed.

(** X6.  In the summary line the number of loan rows never exceeds the
    number of parsed records: for the table built from any list of records
    and its focus view, [loan_rows <= total_rows]; and both are 0 when no
    row was kept. *)
Theorem summary_counts (records : list dict) :
  (loan_rows (make_focus_loans_table (make_dataframe records))
   <= total_rows (make_dataframe records))%nat
  /\ total_rows (make_dataframe records) = length (kept_rows records).
Proof.
  destruct (make_dataframe_shape records) as (_ & _ & _ & _ & Hcols & Hlen).
  unfold loan_rows, total_rows.
  destruct (empty (make_dataframe records)) eqn:He.
  - assert (rows (make_dataframe records) = []) as Hrows.
    { unfold empty in He. destruct (columns (make_dataframe records)) eqn:Hc.
      + by apply Hcols.
      + by destruct (rows (make_dataframe records)). }
    split.
    + unfold make_focus_loans_table. rewrite He, Hrows. done.
    + by rewrite <-Hlen, Hrows.
  - split; [apply FocusRows.focus_length_le | done].
Qed.

End WithDateLib.

(** X7.  For a table with distinct column labels, the column order of the
    "Full Parsed" tab is a rearrangement of the columns of the table: every
    column is shown once and none is added. *)
Theorem full_parsed_order_permutation (df : DataFrame) :
  NoDup (columns df) ->
  full_parsed_order df ≡ₚ columns df /\ NoDup (full_parsed_order df).
Proof.
  intros Hnd.
  assert (NoDup preferred) as Hpref.
  { apply (bool_decide_unpack _). vm_compute. exact I. }
  assert (filter (fun c => c ∈ columns df) preferred
          ≡ₚ filter (fun c => c ∈ preferred) (columns df)) as Hsame.
  { apply NoDup_Permutation; [by apply NoDup_filter..|].
    intros c. rewrite !list_elem_of_filter. naive_solver. }
  assert (full_parsed_order df ≡ₚ columns df) as Hperm.
  { unfold full_parsed_order. rewrite Hsame. apply filter_app_complement. }
  split; [done|]. by rewrite Hperm.
Qed.

Lemma full_parsed_order_permutation_witness :
  NoDup (columns sample_lender_table)
  /\ full_parsed_order sample_lender_table ≡ₚ columns sample_lender_table
  /\ full_parsed_order sample_lender_table = ["documentDate"; "saleDate"; "lenderName"].
Proof.
  assert (NoDup (columns sample_lender_table)) as Hnd.
  { apply (bool_decide_unpack _). vm_compute. exact I. }
  split_and!; [exact Hnd | | vm_compute; reflexivity].
  exact (proj1 (full_parsed_order_permutation sample_lender_table Hnd)).
Defined.

End TableInvariants.

(** ** More about the field normaliser *)

Module NormalizeMore.
Import NormalizeFacts.

Lemma dict_set_fresh k v (d : dict) : k ∉ d.*1 -> dict_set k v d = d ++ [(k, v)].
Proof.
  induction d as [|[k0 v0] d IH]; [done|].
  rewrite fmap_cons, not_elem_of_cons. cbn [fst]. intros [Hne Hk].
  cbn [dict_set]. destruct (String.eqb_spec k k0); [done|].
  by rewrite IH.
Qed.

(** Two dicts with the same keys in the same order and the same value
    under each key are the same dict. *)
Lemma dict_ext (d1 d2 : dict) :
  d1.*1 = d2.*1 -> NoDup d1.*1 ->
  (forall k, dict_get k d1 = dict_get k d2) -> d1 = d2.
Proof.
  revert d2. induction d1 as [|[k v] d1 IH]; intros [|[k' v'] d2] Hkeys Hnd Hget;
    try done.
  rewrite !fmap_cons in Hkeys. cbn [fst] in Hkeys. injection Hkeys as <- Hkeys.
  rewrite fmap_cons in Hnd. cbn [fst] in Hnd. apply NoDup_cons in Hnd as [Hk Hnd].
  pose proof (Hget k) as Hk0. cbn [dict_get] in Hk0.
  rewrite String.eqb_refl in Hk0. injection Hk0 as <-.
  f_equal. apply IH; [done..|].
  intros k0. specialize (Hget k0). cbn [dict_get] in Hget.
  destruct (String.eqb_spec k0 k) as [Heq|Hne]; [|done].
  rewrite Heq. clear Hget.
  assert (k ∉ d2.*1) as Hk2 by congruence.
  apply dict_get_None in Hk, Hk2. by rewrite Hk, Hk2.
Qed.

Lemma filter_ext_in {A} (P Q : A -> Prop)
    `{!forall x, Decision (P x)} `{!forall x, Decision (Q x)} (l : list A) :
  (forall x, x ∈ l -> P x <-> Q x) -> filter P l = filter Q l.
Proof.
  induction l as [|x l IH]; intros Hext; [done|].
  rewrite !filter_cons. rewrite IH by (intros y Hy; apply Hext; by right).
  destruct (decide (P x)) as [HP|HP], (decide (Q x)) as [HQ|HQ]; try done.
  - destruct HQ. apply Hext; [by left | done].
  - destruct HP. apply Hext; [by left | done].
Qed.

(** The keys the first loop adds, in the order of the alias table. *)
Lemma assign_fold_keys d cm acc :
  NoDup (acc.*1 ++ cm.*1) ->
  (fold_left (assign_step d) cm acc).*1
  = acc.*1 ++ (filter (fun e => is_Some (first_candidate d e.2)) cm).*1.
Proof.
  revert acc. induction cm as [|[k cs] cm IH]; intros acc Hnd.
  - simpl. by rewrite app_nil_r.
  - rewrite fmap_cons in Hnd. cbn [fst] in Hnd. pose proof Hnd as Hnd0.
    apply NoDup_app in Hnd as (Hacc & Hdisj & Hcm).
    apply NoDup_cons in Hcm as [Hk Hcm].
    assert (k ∉ acc.*1) as Hfresh by (intros Hin; apply (Hdisj _ Hin); by left).
    cbn [fold_left assign_step]. rewrite filter_cons. cbn [snd].
    destruct (first_candidate d cs) as [v|] eqn:Hv.
    + rewrite decide_True by done. rewrite IH.
      * rewrite dict_set_keys, decide_False by done.
        rewrite fmap_cons. cbn [fst]. by rewrite <-app_assoc.
      * rewrite dict_set_keys, decide_False by done.
        rewrite <-app_assoc. exact Hnd0.
    + rewrite decide_False by (by intros [? ?]). apply IH.
      apply NoDup_app. split_and!; [done| |done].
      intros x Hx Hin. apply (Hdisj x Hx). by right.
Qed.

Lemma assign_aliases_keys d :
  (assign_aliases d).*1 = (filter (fun e => is_Some (first_candidate d e.2)) colmap).*1.
Proof. unfold assign_aliases. rewrite assign_fold_keys; [done|]. apply colmap_NoDup. Qed.

Section WithDateLib.
Context `{DateLib}.

Lemma normalize_row_keys d :
  (_normalize_row d).*1 = (filter (fun e => is_Some (first_candidate d e.2)) colmap).*1.
Proof.
  unfold _normalize_row, coerce_dates. rewrite coerce_fold_keys.
  unfold assign_aliases. rewrite assign_fold_keys; [done|]. apply colmap_NoDup.
Qed.

(** X8.  The output of [_normalize_row] lists its fields in the order of
    the alias table: its keys are, in that order and each once, the
    canonical fields that have a usable alias in the input. *)
Theorem normalize_row_field_order (d : dict) :
  (_normalize_row d).*1 = (filter (fun e => is_Some (first_candidate d e.2)) colmap).*1
  /\ (_normalize_row d).*1 `sublist_of` colmap.*1.
Proof.
  split; [apply normalize_row_keys|].
  rewrite normalize_row_keys. apply fmap_sublist, sublist_filter.
Qed.

Lemma first_candidate_agree d1 d2 cs :
  (forall c, c ∈ cs -> dict_get c d1 = dict_get c d2) ->
  first_candidate d1 cs = first_candidate d2 cs.
Proof.
  induction cs as [|c cs IH]; intros Hagree; [done|].
  cbn [first_candidate]. rewrite (Hagree c) by (by left).
  rewrite IH by (intros c' Hc'; apply Hagree; by right). done.
Qed.

Lemma assign_fold_agree d1 d2 cm acc :
  (forall k cs, (k, cs) ∈ cm -> first_candidate d1 cs = first_candidate d2 cs) ->
  fold_left (assign_step d1) cm acc = fold_left (assign_step d2) cm acc.
Proof.
  revert acc. induction cm as [|[k cs] cm IH]; intros acc Hagree; [done|].
  cbn [fold_left assign_step]. rewrite (Hagree k cs) by (by left).
  apply IH. intros k' cs' Hin. apply (Hagree k' cs'). by right.
Qed.

(** X9.  [_normalize_row] reads its input only through the alias keys: two
    mappings that hold the same value (or both nothing) under every alias
    of the table normalise to the same record, whatever other keys they
    have and in whatever order their keys come. *)
Theorem normalize_row_reads_aliases_only (d1 d2 : dict) :
  (forall std_col candidates c,
      (std_col, candidates) ∈ colmap -> c ∈ candidates ->
      dict_get c d1 = dict_get c d2) ->
  _normalize_row d1 = _normalize_row d2.
Proof.
  intros Hagree. unfold _normalize_row, assign_aliases.
  rewrite (assign_fold_agree d1 d2); [done|].
  intros k cs Hin. apply first_candidate_agree. intros c Hc. by eapply Hagree.
Qed.

Lemma first_candidate_absent (out : dict) cs :
  (forall c, c ∈ cs -> dict_get c out = None) -> first_candidate out cs = None.
Proof.
  induction cs as [|c cs IH]; intros Habsent; [done|].
  cbn [first_candidate]. rewrite (Habsent c) by (by left).
  apply IH. intros c' Hc'. apply Habsent. by right.
Qed.

(** In a record that holds only canonical fields with usable values, the
    inner loop finds the field under its own name. *)
Lemma first_candidate_self (out : dict) k cs :
  k ∈ cs ->
  (forall c, c ∈ cs -> c <> k -> dict_get c out = None) ->
  (forall v, dict_get k out = Some v -> not_none_or_empty v = true) ->
  first_candidate out cs = dict_get k out.
Proof.
  intros Hk Hothers Husable.
  destruct (dict_get k out) as [v|] eqn:Hv.
  - specialize (Husable v eq_refl).
    induction cs as [|c cs IH]; [by apply elem_of_nil in Hk|].
    cbn [first_candidate]. destruct (decide (c = k)) as [->|Hne].
    + by rewrite Hv, Husable.
    + rewrite (Hothers c); [|by left|done].
      apply elem_of_cons in Hk as [->|Hk]; [done|].
      apply IH; [done|]. intros c' Hc'. apply Hothers. by right.
  - apply first_candidate_absent. intros c Hc.
    destruct (decide (c = k)) as [->|Hne]; [done|]. by apply Hothers.
Qed.

Lemma colmap_own_names :
  Forall (fun e : string * list string =>
            e.1 ∈ e.2 /\ Forall (fun c => c ∈ colmap.*1 -> c = e.1) e.2) colmap.
Proof. apply (bool_decide_unpack _). vm_compute. exact I. Qed.

Lemma normalize_row_entries (d : dict) :
  Forall (fun kv => kv.1 ∈ colmap.*1 /\ not_none_or_empty kv.2 = true) (_normalize_row d)
  /\ NoDup (_normalize_row d).*1.
Proof.
  split.
  - apply coerce_fold_invariant.
    + intros k v [? ?]. split; [done | by apply coerce_date_usable].
    + apply (assign_invariant _ d colmap []); [|constructor|constructor].
      intros k cs v Hin Hv. split.
      * apply list_elem_of_fmap. by exists (k, cs).
      * by eapply first_candidate_usable.
  - unfold _normalize_row, coerce_dates. rewrite coerce_fold_keys.
    apply assign_aliases_NoDup.
Qed.

Lemma normalize_row_entry (d : dict) k cs :
  (k, cs) ∈ colmap ->
  dict_get k (_normalize_row d)
  = (if is_date_key k then _coerce_date else id) <$> first_candidate d cs.
Proof.
  intros Hin. rewrite normalize_row_get. unfold assign_aliases.
  rewrite (assign_entry d colmap [] k cs); [done | apply colmap_NoDup | done | done].
Qed.

(** X10.  Normalising a normalised record changes nothing, provided
    [dateutil] reads back the ISO dates it produced for the date fields of
    the record: every canonical field name is an alias of itself and of no
    other field. *)
Theorem normalize_row_idempotent (d : dict) :
  (forall k s dt,
      is_date_key k = true ->
      dict_get k (assign_aliases d) = Some (JStr s) ->
      dateutil_parse s = Some dt ->
      exists dt', dateutil_parse (isoformat (dt_date dt)) = Some dt'
                  /\ dt_date dt' = dt_date dt) ->
  _normalize_row (_normalize_row d) = _normalize_row d.
Proof.
  intros Hiso. set (out := _normalize_row d).
  destruct (normalize_row_entries d) as (Hinv & Hnd). fold out in Hinv, Hnd.
  rewrite Forall_forall in Hinv.
  assert (forall k cs, (k, cs) ∈ colmap -> first_candidate out cs = dict_get k out) as Hself.
  { intros k cs Hin. pose proof colmap_own_names as Hown.
    rewrite Forall_forall in Hown. destruct (Hown _ Hin) as [Hk Hcs]. cbn [fst snd] in *.
    rewrite Forall_forall in Hcs. apply first_candidate_self; [done| |].
    - intros c Hc Hne. apply dict_get_None. intros Hcin.
      apply list_elem_of_fmap in Hcin as ([c' v] & -> & Hcv).
      destruct (Hinv _ Hcv) as [Hcanon _]. by apply Hne, Hcs.
    - intros v Hv%dict_get_Some_elem_of. by destruct (Hinv _ Hv) as (_ & ?). }
  assert (assign_aliases out = out) as Hassign.
  { apply dict_ext.
    - assert (out.*1 = (filter (fun e => is_Some (first_candidate d e.2)) colmap).*1)
        as -> by apply normalize_row_keys.
      rewrite assign_aliases_keys. f_equal.
      apply filter_ext_in. intros [k cs] Hin. cbn [snd].
      rewrite (Hself k cs) by done. unfold out.
      rewrite (normalize_row_entry d k cs Hin). by rewrite fmap_is_Some.
    - apply assign_aliases_NoDup.
    - intros k. destruct (decide (k ∈ colmap.*1)) as [Hin|Hout].
      + apply list_elem_of_fmap in Hin as ([k' cs] & -> & Hin). cbn [fst].
        unfold assign_aliases.
        rewrite (assign_entry out colmap [] k' cs); [by apply Hself| |done..].
        apply colmap_NoDup.
      + unfold assign_aliases. rewrite assign_other by done. simpl. symmetry.
        apply dict_get_None. intros Hin. apply Hout.
        apply list_elem_of_fmap in Hin as ([k' v] & -> & Hkv).
        by destruct (Hinv _ Hkv). }
  unfold _normalize_row at 1. rewrite Hassign.
  apply dict_ext.
  - unfold coerce_dates. by rewrite coerce_fold_keys.
  - unfold coerce_dates. by rewrite coerce_fold_keys.
  - intros k. rewrite coerce_dates_get by done.
    destruct (is_date_key k) eqn:Hdate; [|by destruct (dict_get k out)].
    unfold out. rewrite normalize_row_get, Hdate.
    destruct (dict_get k (assign_aliases d)) as [v|] eqn:Hv; [|done].
    cbn [fmap option_fmap option_map]. f_equal.
    destruct v as [|b|n|f|s|items|members]; try done.
    cbn [_coerce_date]. destruct (dateutil_parse s) as [dt|] eqn:Hs.
    + destruct (Hiso k s dt Hdate Hv Hs) as (dt' & Hback & Hsame).
      cbn [_coerce_date]. by rewrite Hback, Hsame.
    + cbn [_coerce_date]. by rewrite Hs.
Qed.

End WithDateLib.

Lemma normalize_row_reads_aliases_only_witness :
  _normalize_row (H := Reference.reference_lib)
    [("lender1", JStr "Acme Bank"); ("saleTransDate", JStr "2019-07-01")]
  = _normalize_row (H := Reference.reference_lib)
      [("saleTransDate", JStr "2019-07-01"); ("apn", JInt 7); ("lender1", JStr "Acme Bank")].
Proof.
  apply (normalize_row_reads_aliases_only (H := Reference.reference_lib)).
  intros std_col candidates c Hin Hc.
  assert (Forall (fun e : string * list string => Forall (fun c => c <> "apn") e.2) colmap)
    as Hnot.
  { apply (bool_decide_unpack _). vm_compute. exact I. }
  rewrite Forall_forall in Hnot. specialize (Hnot _ Hin). cbn [snd] in Hnot.
  rewrite Forall_forall in Hnot. specialize (Hnot _ Hc).
  cbn [dict_get].
  destruct (String.eqb_spec c "lender1") as [->|?]; [reflexivity|].
  destruct (String.eqb_spec c "saleTransDate") as [->|?]; [reflexivity|].
  destruct (String.eqb_spec c "apn") as [->|?]; [by destruct Hnot | reflexivity].
Defined.

Lemma normalize_row_idempotent_witness :
  _normalize_row (H := Reference.reference_lib)
    (_normalize_row (H := Reference.reference_lib)
       [("lender1", JStr "Acme Bank"); ("saleTransDate", JStr "March 3, 2020")])
  = _normalize_row (H := Reference.reference_lib)
      [("lender1", JStr "Acme Bank"); ("saleTransDate", JStr "March 3, 2020")]
  /\ _normalize_row (H := Reference.reference_lib)
       [("lender1", JStr "Acme Bank"); ("saleTransDate", JStr "March 3, 2020")]
     = [("lenderName", JStr "Acme Bank"); ("saleDate", JStr "2020-03-03")].
Proof.
  split; [|vm_compute; reflexivity].
  apply (normalize_row_idempotent (H := Reference.reference_lib)).
  intros k s dt Hk Hget Hparse.
  change (assign_aliases [("lender1", JStr "Acme Bank"); ("saleTransDate", JStr "March 3, 2020")])
    with [("lenderName", JStr "Acme Bank"); ("saleDate", JStr "March 3, 2020")] in Hget.
  cbn [dict_get] in Hget.
  destruct (String.eqb_spec k "lenderName") as [->|_]; [discriminate Hk|].
  destruct (String.eqb_spec k "saleDate") as [->|_]; [|discriminate Hget].
  injection Hget as <-. injection Hparse as <-.
  eexists. split; vm_compute; reflexivity.
Defined.

End NormalizeMore.

(** ** Documents without records *)

Module PipelineFacts.
Import WalkFacts HarvestFacts.

(** X11.  The detector looks at the keys only and is monotone in them: a
    mapping that has every key of a record-like mapping is record-like,
    whatever the values and the order of the keys; so two mappings with the
    same keys are classified alike. *)
Theorem looks_like_record_by_keys (d1 d2 : dict) :
  (forall k, k ∈ d1.*1 -> k ∈ d2.*1) ->
  (_looks_like_record d1 = true -> _looks_like_record d2 = true)
  /\ ((forall k, k ∈ d2.*1 -> k ∈ d1.*1) -> _looks_like_record d1 = _looks_like_record d2).
Proof.
  intros Hsub.
  assert (forall a b : dict, (forall k, k ∈ a.*1 -> k ∈ b.*1) ->
            _looks_like_record a = true -> _looks_like_record b = true) as Hmono.
  { intros a b Hab (k & Hk & Hv)%looks_like_record_iff.
    apply looks_like_record_iff. exists k. split; [by apply Hab | done]. }
  split; [by apply Hmono|]. intros Hsup.
  destruct (_looks_like_record d1) eqn:H1.
  - symmetry. by apply (Hmono d1 d2).
  - destruct (_looks_like_record d2) eqn:H2; [|done].
    rewrite (Hmono d2 d1) in H1; done.
Qed.

Lemma looks_like_record_by_keys_witness :
  (forall k, k ∈ [("lender", JNull)].*1 -> k ∈ [("id", JInt 1); ("lender", JStr "Acme")].*1)
  /\ _looks_like_record [("id", JInt 1); ("lender", JStr "Acme")] = true.
Proof.
  assert (forall k, k ∈ [("lender", JNull)].*1
                    -> k ∈ [("id", JInt 1); ("lender", JStr "Acme")].*1) as Hsub.
  { intros k ->%list_elem_of_singleton. right. by left. }
  split; [exact Hsub|].
  apply (proj1 (looks_like_record_by_keys _ _ Hsub)). vm_compute. reflexivity.
Defined.

Lemma harvest_nil_positions (D : json) :
  harvest_records D = [] <->
  forall p O, lookup_path p D = Some (JObj O) -> _looks_like_record O = false.
Proof.
  rewrite harvest_walk. split.
  - intros Hnil p O Hp. destruct (_looks_like_record O) eqn:HO; [|done].
    assert (O ∈ walk D ≫= (fun pv => found_here pv.2)) as Hin.
    { apply list_elem_of_bind. exists (p, JObj O). split; [|by apply elem_of_walk].
      simpl. rewrite HO. by left. }
    rewrite Hnil in Hin. by apply elem_of_nil in Hin.
  - intros Hnone. destruct (walk D ≫= (fun pv => found_here pv.2)) as [|O l] eqn:Hbind; [done|].
    assert (O ∈ walk D ≫= (fun pv => found_here pv.2)) as Hin by (rewrite Hbind; by left).
    apply list_elem_of_bind in Hin as ([p x] & Hx & Hp%elem_of_walk).
    destruct x as [|b|n|f|s|items|O']; simpl in Hx; try (by apply elem_of_nil in Hx).
    rewrite (Hnone p O' Hp) in Hx. by apply elem_of_nil in Hx.
Qed.

(** X12.  [harvest_records] returns the empty list exactly for the
    documents that hold no record-like mapping at any position. *)
Theorem harvest_records_nil_iff (D : json) :
  harvest_records D = [] <->
  forall p O, lookup_path p D = Some (JObj O) -> _looks_like_record O = false.
Proof. apply harvest_nil_positions. Qed.

Section WithDateLib.
Context `{DateLib}.

(** X13.  A document without records goes through the whole pipeline
    without a fault: the table and the focus view are the empty frame and
    both counts of the summary line are 0.  This is the case of the
    document [{"_raw_text": ...}] that [fetch_attom] returns when the
    response body is not JSON, whatever the text. *)
Theorem no_records_pipeline (D : json) (text : string) :
  (harvest_records D = [] ->
   make_dataframe (harvest_records D) = empty_frame
   /\ make_focus_loans_table (make_dataframe (harvest_records D)) = empty_frame
   /\ total_rows (make_dataframe (harvest_records D)) = 0%nat
   /\ loan_rows (make_focus_loans_table (make_dataframe (harvest_records D))) = 0%nat)
  /\ harvest_records (raw_text_document text) = [].
Proof.
  split.
  - intros ->. done.
  - apply harvest_nil_positions. intros [|i p] O Hp.
    + injection Hp as <-. vm_compute. reflexivity.
    + destruct i as [|i]; simpl in Hp; [|done]. by destruct p.
Qed.

End WithDateLib.

End PipelineFacts.

(** ** The password gate *)

Module GateFacts.
Import Gate.

(** X14.  When a text has been typed into the password field, the next run
    of [check_password] lets the user in exactly when the configured
    password is a string equal to that text; with no password configured
    ([None]) or one that is not a string, no text is accepted. *)
Theorem gate_opens_iff (app_password : json) (typed : string) (st : SessionState) :
  exists st', on_change app_password typed st = Some st'
    /\ ((check_password st').2 = true <-> app_password = JStr typed).
Proof.
  unfold on_change, password_entered. cbn [password].
  destruct (str_eq typed app_password) eqn:Heq; eexists; (split; [reflexivity|]).
  - cbn. split; [intros _|done].
    destruct app_password as [|b|n|f|s|items|members]; try discriminate.
    cbn in Heq. by apply String.eqb_eq in Heq as ->.
  - cbn. split; [done|]. intros ->. cbn in Heq. by rewrite String.eqb_refl in Heq.
Qed.

(** X15.  A correct password is not kept: the callback deletes it from the
    session state, and from then on every run of [check_password] returns
    [True], renders nothing and leaves the state as it is. *)
Theorem gate_forgets_password (typed : string) (st : SessionState) :
  on_change (JStr typed) typed st = Some (Session (Some true) None)
  /\ check_password (Session (Some true) None) = (Session (Some true) None, [], true).
Proof.
  split; [|reflexivity].
  unfold on_change, password_entered. cbn. by rewrite String.eqb_refl.
Qed.

(** X16.  Whenever [check_password] refuses, it shows the password field
    together with the message "Password incorrect" - also on the first
    visit, when nothing was typed - and leaves the flag at [False]. *)
Theorem gate_refusal_shows_error (st : SessionState) :
  (check_password st).2 = false ->
  (check_password st).1.2
  = [TextInput "Enter app password"; ErrorBox "Password incorrect"]
  /\ password_correct (check_password st).1.1 = Some false
  /\ password_correct st <> Some true.
Proof.
  unfold check_password. destruct st as [[[|]|] pw]; cbn; done.
Qed.

Lemma gate_refusal_shows_error_witness :
  (check_password (Session None None)).2 = false
  /\ check_password (Session None None)
     = (Session (Some false) (Some ""),
        [TextInput "Enter app password"; ErrorBox "Password incorrect"], false).
Proof.
  split; [reflexivity|].
  destruct (gate_refusal_shows_error (Session None None) eq_refl) as (_ & _ & _).
  reflexivity.
Defined.

End GateFacts.

(** ** The address form *)

Module FormFacts.
Import Form.

Lemma truthy_not_empty s : PyStr.truthy s = true <-> s <> "".
Proof. by destruct s. Qed.

(** X17.  The API is never called with an empty argument: when a submitted
    form ends in [fetch_attom(street, address2, api_key)], the key is truthy,
    the street is the one typed and is not empty, and the second address
    line is not empty. *)
Theorem fetch_has_all_arguments (upper : string -> string) (api_key : json)
    (street address2_raw city state zipcode s a : string) (k : json) :
  handle_submit upper api_key street address2_raw city state zipcode = Fetch s a k ->
  k = api_key /\ truthy_json k = true
  /\ s = street /\ s <> ""
  /\ a = compose_address2 upper address2_raw city state zipcode /\ a <> "".
Proof.
  unfold handle_submit.
  destruct (truthy_json api_key) eqn:Hk; [|done].
  destruct (PyStr.truthy street) eqn:Hs; [|done].
  destruct (PyStr.truthy (compose_address2 upper address2_raw city state zipcode)) eqn:Ha;
    [|done].
  cbn [negb]. intros [= <- <- <-].
  split_and!; try done; by apply truthy_not_empty.
Qed.

(** X18.  A second address line typed by the user wins: when it is not
    blank, it is used with its surrounding white space removed, and the
    city, state and ZIP fields are not read. *)
Theorem typed_address2_wins (upper : string -> string) (api_key : json)
    (street address2_raw city state zipcode : string) :
  truthy_json api_key = true -> street <> "" -> PyStr.strip address2_raw <> "" ->
  handle_submit upper api_key street address2_raw city state zipcode
  = Fetch street (PyStr.strip address2_raw) api_key.
Proof.
  intros Hk Hs%truthy_not_empty Ha%truthy_not_empty.
  unfold handle_submit, compose_address2. rewrite Hk, Hs. cbn [negb].
  rewrite !Ha. cbn [negb andb]. by rewrite Ha.
Qed.

Lemma fetch_has_all_arguments_witness :
  handle_submit ascii_upper (JStr "key") "1111 11th St SE" "" "Chicago" "il" "60007"
  = Fetch "1111 11th St SE" "Chicago, IL 60007" (JStr "key")
  /\ "Chicago, IL 60007" <> "".
Proof.
  assert (handle_submit ascii_upper (JStr "key") "1111 11th St SE" "" "Chicago" "il" "60007"
          = Fetch "1111 11th St SE" "Chicago, IL 60007" (JStr "key")) as Hfetch.
  { vm_compute. reflexivity. }
  split; [exact Hfetch|].
  by destruct (fetch_has_all_arguments _ _ _ _ _ _ _ _ _ _ Hfetch) as (_ & _ & _ & _ & _ & ?).
Defined.

Lemma typed_address2_wins_witness :
  truthy_json (JStr "key") = true /\ "1 Main St" <> "" /\ PyStr.strip " Springfield, IL " <> ""
  /\ handle_submit ascii_upper (JStr "key") "1 Main St" " Springfield, IL " "Chicago" "il" ""
     = Fetch "1 Main St" "Springfield, IL" (JStr "key").
Proof.
  assert (PyStr.strip " Springfield, IL " <> "") as Ha by (vm_compute; discriminate).
  split_and!; [reflexivity | discriminate | exact Ha |].
  rewrite (typed_address2_wins ascii_upper (JStr "key") "1 Main St" " Springfield, IL "
             "Chicago" "il" "" eq_refl); [|discriminate|exact Ha].
  vm_compute. reflexivity.
Defined.

End FormFacts.

(** ** The filters of the "Loan Summary" tab *)

Module FilterFacts.
Import Filters.

Lemma sublist_filter_rows keep df :
  rows (filter_rows keep df) `sublist_of` rows df
  /\ columns (filter_rows keep df) = columns df
  /\ Forall (fun r => keep r = true) (rows (filter_rows keep df)).
Proof.
  unfold filter_rows. cbn [rows columns]. split_and!; [apply sublist_filter | done |].
  apply Forall_forall. by intros r [? _]%list_elem_of_filter.
Qed.

Lemma year_of_Some r y : year_of r = Some y <-> cell_at "Year" r = VObj (JInt y).
Proof.
  unfold year_of. destruct (cell_at "Year" r) as [[|b|n|f|s|items|members]| |t| |];
    naive_solver.
Qed.

Section WithDateLib.
Context `{DateLib}.

(** A focus view that is not empty has the column Year. *)
Lemma focus_has_year df :
  empty (make_focus_loans_table df) = false ->
  has_column "Year" (make_focus_loans_table df) = true.
Proof.
  intros Hfocus. apply PandasFacts.has_column_true.
  destruct (empty df) eqn:Hne.
  { unfold make_focus_loans_table in Hfocus. rewrite Hne in Hfocus. congruence. }
  rewrite (FocusRows.focus_columns_shape df Hne).
  apply FocusFacts.empty_false in Hfocus as [_ Hrows].
  destruct (best_date_column df); [|set_solver].
  destruct (rows (make_focus_loans_table df)); [done | by left].
Qed.

(** X19.  The filters only remove rows.  For a focus view that is not
    empty and whose lender cells are hashable: the filtered view has the
    columns of the focus view and its rows are rows of the focus view in
    their order; with no year and no lender selected it is the focus view
    itself; with years selected every row left shows one of them, so an
    undated row is hidden; with lenders selected every row left has one
    of them as its lender. *)
Theorem apply_filters_only_removes (df : DataFrame)
    (year_filter : list Z) (lender_filter : list string) :
  let focus := make_focus_loans_table df in
  empty focus = false ->
  Forall (fun r => hashable (cell_at "Lender Name" r) = true) (rows focus) ->
  rows (apply_filters year_filter lender_filter focus) `sublist_of` rows focus
  /\ columns (apply_filters year_filter lender_filter focus) = columns focus
  /\ apply_filters [] [] focus = focus
  /\ (year_filter <> [] ->
      Forall (fun r => exists y, cell_at "Year" r = VObj (JInt y) /\ y ∈ year_filter)
             (rows (apply_filters year_filter lender_filter focus)))
  /\ (lender_filter <> [] -> has_column "Lender Name" focus = true ->
      Forall (fun r => exists s, cell_at "Lender Name" r = VObj (JStr s) /\ s ∈ lender_filter)
             (rows (apply_filters year_filter lender_filter focus))).
Proof.
  intros focus Hfocus _. pose proof (focus_has_year df Hfocus) as Hyear.
  fold focus in Hyear. unfold apply_filters.
  set (f1 := if nonempty year_filter && has_column "Year" focus
             then filter_rows (year_selected year_filter) focus else focus).
  assert (rows f1 `sublist_of` rows focus /\ columns f1 = columns focus) as [Hs1 Hc1].
  { unfold f1. destruct (nonempty year_filter && has_column "Year" focus); [|done].
    by destruct (sublist_filter_rows (year_selected year_filter) focus) as (? & ? & _). }
  set (f2 := if nonempty lender_filter && has_column "Lender Name" f1
             then filter_rows (lender_selected lender_filter) f1 else f1).
  assert (rows f2 `sublist_of` rows f1 /\ columns f2 = columns f1) as [Hs2 Hc2].
  { unfold f2. destruct (nonempty lender_filter && has_column "Lender Name" f1); [|done].
    by destruct (sublist_filter_rows (lender_selected lender_filter) f1) as (? & ? & _). }
  split_and!.
  - by etrans.
  - congruence.
  - done.
  - intros Hne.
    assert (Forall (fun r => year_selected year_filter r = true) (rows f1)) as Hall.
    { unfold f1. rewrite Hyear. destruct year_filter; [done|]. cbn [nonempty andb].
      by destruct (sublist_filter_rows (year_selected (z :: year_filter)) focus)
        as (_ & _ & ?). }
    rewrite Forall_forall in Hall. apply Forall_forall. intros r Hr.
    specialize (Hall r (elem_of_sublist _ _ _ Hr Hs2)).
    unfold year_selected in Hall. destruct (year_of r) as [y|] eqn:Hy; [|done].
    exists y. split; [by apply year_of_Some|]. by apply bool_decide_eq_true in Hall.
  - intros Hne Hlender.
    assert (has_column "Lender Name" f1 = true) as Hlender1.
    { unfold has_column in *. by rewrite Hc1. }
    assert (Forall (fun r => lender_selected lender_filter r = true) (rows f2)) as Hall.
    { unfold f2. rewrite Hlender1. destruct lender_filter; [done|]. cbn [nonempty andb].
      by destruct (sublist_filter_rows (lender_selected (s :: lender_filter)) f1)
        as (_ & _ & ?). }
    eapply Forall_impl; [exact Hall|]. intros r Hsel. unfold lender_selected in Hsel.
    destruct (cell_at "Lender Name" r) as [[|b|n|f|s|items|members]| |t| |]; try done.
    exists s. split; [done|]. by apply bool_decide_eq_true in Hsel.
Qed.

(** X20.  The years offered in the filter of a focus view that is not
    empty are the years its rows show, each once, latest first. *)
Theorem year_options_sorted_distinct (df : DataFrame) :
  let focus := make_focus_loans_table df in
  empty focus = false ->
  (forall y, y ∈ year_options focus
             <-> exists r, r ∈ rows focus /\ cell_at "Year" r = VObj (JInt y))
  /\ StronglySorted (fun a b => b < a) (year_options focus).
Proof.
  intros focus Hfocus. pose proof (focus_has_year df Hfocus) as Hyear.
  fold focus in Hyear. unfold year_options. rewrite Hyear.
  set (ys := remove_dups (omap year_of (rows focus))).
  assert (merge_sort descending ys ≡ₚ ys) as Hperm
    by apply merge_sort_Permutation.
  assert (NoDup (merge_sort descending ys)) as Hnd.
  { rewrite Hperm. apply NoDup_remove_dups. }
  assert (StronglySorted descending (merge_sort descending ys)) as Hsorted.
  { apply StronglySorted_merge_sort.
    - intros a b c. unfold descending. lia.
    - intros a b. unfold descending. lia. }
  split.
  - intros y. rewrite Hperm. unfold ys. rewrite elem_of_remove_dups, list_elem_of_omap.
    split; intros (r & Hr & Hy); exists r; (split; [done|]); by apply year_of_Some.
  - revert Hnd Hsorted. generalize (merge_sort descending ys). clear.
    induction l as [|x l IH]; intros Hnd Hs; [constructor|].
    apply NoDup_cons in Hnd as [Hx Hnd]. apply StronglySorted_cons in Hs as [Hall Hs].
    apply StronglySorted_cons. split; [|by apply IH].
    rewrite Forall_forall in *. intros y Hy. specialize (Hall y Hy).
    assert (y <> x) by (by intros ->). unfold descending in Hall. lia.
Qed.

End WithDateLib.

Lemma apply_filters_only_removes_witness :
  empty (make_focus_loans_table (H := Reference.reference_lib) sample_lender_table) = false
  /\ Forall (fun r => hashable (cell_at "Lender Name" r) = true)
            (rows (make_focus_loans_table (H := Reference.reference_lib) sample_lender_table))
  /\ rows (apply_filters [2021] []
             (make_focus_loans_table (H := Reference.reference_lib) sample_lender_table))
     `sublist_of` rows (make_focus_loans_table (H := Reference.reference_lib)
                          sample_lender_table).
Proof.
  assert (Forall (fun r => hashable (cell_at "Lender Name" r) = true)
            (rows (make_focus_loans_table (H := Reference.reference_lib) sample_lender_table)))
    as Hlenders.
  { vm_compute. repeat constructor. }
  split_and!; [reflexivity | exact Hlenders |].
  exact (proj1 (apply_filters_only_removes (H := Reference.reference_lib)
                  sample_lender_table [2021] [] eq_refl Hlenders)).
Defined.

(** Selecting 2021 leaves the row of 2021 and hides the undated row. *)
Example apply_filters_example :
  rows (apply_filters [2021] []
          (make_focus_loans_table (H := Reference.reference_lib) sample_lender_table))
  = [(1%nat, [("Year", VObj (JInt 2021)); ("Purchase Date", VObj (JStr "2021-02-03"));
              ("Lender Name", VObj (JStr "First Bank"))])].
Proof. vm_compute. reflexivity. Qed.

Lemma year_options_sorted_distinct_witness :
  empty (make_focus_loans_table (H := Reference.reference_lib) sample_lender_table) = false
  /\ year_options (make_focus_loans_table (H := Reference.reference_lib) sample_lender_table)
     = [2021]
  /\ StronglySorted (fun a b => b < a)
       (year_options (make_focus_loans_table (H := Reference.reference_lib) sample_lender_table)).
Proof.
  split_and!; [reflexivity | vm_compute; reflexivity |].
  exact (proj2 (year_options_sorted_distinct (H := Reference.reference_lib)
                  sample_lender_table eq_refl)).
Defined.

End FilterFacts.
